(** * SAP IW32 long-text automation: a shallow embedding of [app.py]

    The development follows the automation routine of [app.py]:
    - [_conv] / [coerce_os_to_str]: work-order identifier coercion,
    - [ensure_visible]: the row-visibility calculator,
    - [wait_not_busy]: the busy-wait synchronizer,
    - [set_clipboard]: the clipboard bridge,
    - [push_to_sap]: the field-push sequencer.

    Python integers are unbounded, hence [Z].  Python floats are binary64
    values and are represented by [spec_float].  Strings are [string]s whose
    characters stand for code points below 256.  Wall-clock time is an
    integer number of microseconds. *)

From Stdlib Require Import ZArith Bool List String Ascii Lia QArith.
From Stdlib Require Import DecimalString DecimalZ DecimalPos SpecFloat.
From Equations Require Import Equations.
Import ListNotations.

#[local] Open Scope string_scope.
#[local] Open Scope list_scope.
#[local] Open Scope Z_scope.

(* ===================================================================== *)
(** ** Python builtins used by the source *)
(* ===================================================================== *)

Module Py.

(** [str(n)] for an [int]. *)
Definition str_int (z : Z) : string := NilZero.string_of_int (Z.to_int z).

Definition LF : ascii := "010"%char.
Definition CR : ascii := "013"%char.

(** [c.isspace()] for a code point below 256: TAB, LF, VT, FF, CR, the
    separators FS, GS, RS, US, the space, NEL and the no-break space. *)
Definition isspace (c : ascii) : bool :=
  let n := nat_of_ascii c in
  ((9 <=? n) && (n <=? 13))%nat || ((28 <=? n) && (n <=? 32))%nat
  || (n =? 133)%nat || (n =? 160)%nat.

Fixpoint lstrip (s : string) : string :=
  match s with
  | String c s' => if isspace c then lstrip s' else s
  | EmptyString => EmptyString
  end.

(** [rstrip] drops the trailing run of whitespace: a character is kept
    when it is not whitespace or when something is kept after it. *)
Fixpoint rstrip (s : string) : string :=
  match s with
  | EmptyString => EmptyString
  | String c s' =>
      match rstrip s' with
      | EmptyString => if isspace c then EmptyString else String c EmptyString
      | r => String c r
      end
  end.

(** [s.strip()] *)
Definition strip (s : string) : string := rstrip (lstrip s).

(** [s.startswith(p)] *)
Definition startswith (s p : string) : bool := String.prefix p s.

(** [s.endswith(p)] *)
Definition endswith (s p : string) : bool :=
  let ls := String.length s in
  let lp := String.length p in
  (lp <=? ls)%nat && String.eqb (String.substring (ls - lp) lp s) p.

(** [s[:-k]] for [k > 0]. *)
Definition drop_last (k : nat) (s : string) : string :=
  String.substring 0 (String.length s - k) s.

Definition lower_char (c : ascii) : ascii :=
  let n := nat_of_ascii c in
  if ((65 <=? n) && (n <=? 90))%nat then ascii_of_nat (n + 32) else c.

(** [s.lower()] on ASCII text. *)
Fixpoint lower (s : string) : string :=
  match s with
  | EmptyString => EmptyString
  | String c s' => String (lower_char c) (lower s')
  end.

(** [s.replace(old, new)] for a one-character [old]. *)
Fixpoint replace (old : ascii) (new s : string) : string :=
  match s with
  | EmptyString => EmptyString
  | String c s' =>
      if Ascii.eqb c old then (new ++ replace old new s')%string
      else String c (replace old new s')
  end.

(** [int(x)] for a finite float of sign [s], mantissa [m] and exponent
    [e] (value [(-1)^s * m * 2^e]): the mantissa is shifted by the
    exponent, which discards the fractional bits when [e < 0]. *)
Definition int_of_finite (s : bool) (m : positive) (e : Z) : Z :=
  let mag := Z.shiftl (Z.pos m) e in
  if s then - mag else mag.

Inductive int_result :=
| IntOk (z : Z)
| OverflowError          (* cannot convert float infinity to integer *)
| ValueError.            (* cannot convert float NaN to integer *)

(** [int(x)] for a float. *)
Definition int_of_float (x : spec_float) : int_result :=
  match x with
  | S754_zero _ => IntOk 0
  | S754_finite s m e => IntOk (int_of_finite s m e)
  | S754_infinity _ => OverflowError
  | S754_nan => ValueError
  end.

(** [str(x)] for a float that is not finite. *)
Definition str_nonfinite (x : spec_float) : string :=
  match x with
  | S754_infinity false => "inf"
  | S754_infinity true => "-inf"
  | _ => "nan"
  end.

End Py.

(* ===================================================================== *)
(** ** Work-order identifier coercion *)
(* ===================================================================== *)

(** A spreadsheet cell as [pandas] hands it to [_conv]. *)
Inductive cell :=
| PyNone                       (* None, pd.NA, NaT *)
| PyInt (z : Z)
| PyFloat (x : spec_float)
| PyStr (s : string)
| PyObj (str_x : string).      (* any other object, given by its [str(x)] *)

(** [pd.isna(x)] on a scalar. *)
Definition isna (x : cell) : bool :=
  match x with
  | PyNone => true
  | PyFloat S754_nan => true
  | _ => false
  end.

(** The string branch of [_conv]: strip, then drop a trailing [".0"]. *)
Definition _conv_str (str_x : string) : string :=
  let s := Py.strip str_x in
  if Py.endswith s ".0" then Py.drop_last 2 s else s.

Definition _conv (x : cell) : string :=
  if isna x then ""
  else
    match x with
    | PyInt z => Py.str_int z
    | PyFloat f =>
        match Py.int_of_float f with
        | Py.IntOk z => Py.str_int z
        | _ => Py.str_nonfinite f          (* except Exception: str(x) *)
        end
    | PyStr s => _conv_str s
    | PyObj s => _conv_str s
    | PyNone => ""
    end.

(** [series.apply(_conv)] *)
Definition coerce_os_to_str (series : list cell) : list string :=
  map _conv series.

Section Work.

(** A data-frame row and the cell it holds in the selected OS column. *)
Variable row : Type.
Variable os_cell : row -> cell.

(** [work["OS_str"] = coerce_os_to_str(work[map_col_os])] *)
Definition with_OS_str (df : list row) : list (row * string) :=
  combine df (coerce_os_to_str (map os_cell df)).

(** [work = work[work["OS_str"] != ""]] *)
Definition work (df : list row) : list (row * string) :=
  filter (fun r => negb (String.eqb (snd r) "")) (with_OS_str df).

End Work.

Arguments with_OS_str {row} os_cell df.
Arguments work {row} os_cell df.

(** The floating values used as examples: 6000794541.0 and the binary64
    value nearest to 6000794541.9. *)
Definition f_6000794541_0 : spec_float := S754_finite false 6292289136623616 (-20).
Definition f_6000794541_9 : spec_float := S754_finite false 6292289137567334 (-20).

(* ===================================================================== *)
(** ** Row-visibility calculator *)
(* ===================================================================== *)

(** The table widget: its only state is [VerticalScrollbar.Position]. *)
Record GuiTableControl := { VerticalScrollbar_Position : Z }.

Definition ensure_visible (tbl : GuiTableControl) (abs_row visible_rows : Z)
  : GuiTableControl * Z :=
  let scroll_pos :=
    if abs_row <? visible_rows then 0 else abs_row - (visible_rows - 1) in
  ({| VerticalScrollbar_Position := scroll_pos |}, abs_row - scroll_pos).

(** The scroll position left on the widget by [ensure_visible]. *)
Definition scroll_of (abs_row visible_rows : Z) : Z :=
  VerticalScrollbar_Position
    (fst (ensure_visible {| VerticalScrollbar_Position := 0 |} abs_row visible_rows)).

(* ===================================================================== *)
(** ** The automation boundary: elements, events, environment, world *)
(* ===================================================================== *)

(** Logical names of the addressed UI elements ([SAP_IDS] and ["wnd[0]"]). *)
Inductive element :=
| WND0
| OKCD_ID
| OS_FIELD_ID
| TAB_OPERACOES_ID
| TBL_PATH
| BTN_TEXTO_LONGO (row : Z)
| LONGTEXT_SHELL_ID
| BTN_BACK_ID
| BTN_SAVE_ID.

Definition TBL_PATH_str : string :=
  ("wnd[0]/usr/subSUB_ALL:SAPLCOIH:3001/ssubSUB_LEVEL:SAPLCOIH:110 7/" ++
   "tabsTS_1100/tabpVGUE/ssubSUB_AUFTRAG:SAPLCOVG:3010/tblSAPLCOVGTCTRL_3010")%string.

(** [SAP_IDS[...]], with [BTN_TEXTO_LONGO_FMT.format(row=...)]. *)
Definition SAP_IDS (el : element) : string :=
  match el with
  | WND0 => "wnd[0]"
  | OKCD_ID => "wnd[0]/tbar[0]/okcd"
  | OS_FIELD_ID => "wnd[0]/usr/ctxtCAUFVD-AUFNR"
  | TAB_OPERACOES_ID =>
      "wnd[0]/usr/subSUB_ALL:SAPLCOIH:3001/ssubSUB_LEVEL:SAPLCOIH:110 7/tabsTS_1100/tabpVGUE"
  | TBL_PATH => TBL_PATH_str
  | BTN_TEXTO_LONGO row =>
      (TBL_PATH_str ++ "/btnLT ICON-LTOPR[8," ++ Py.str_int row ++ "]")%string
  | LONGTEXT_SHELL_ID => "wnd[0]/usr/cntlSCMSW_CONTAINER_2102/shellcont/shell"
  | BTN_BACK_ID => "wnd[0]/tbar[0]/btn[3]"
  | BTN_SAVE_ID => "wnd[0]/tbar[0]/btn[11]"
  end.

(** The attribute the source takes from an element once [findById] has
    resolved it: [.maximize], [.text = ...], [.caretPosition = ...],
    [.sendVKey(key)], [.select], [.press], [.setDocum]. *)
Inductive ui_action :=
| Maximize
| SetText (text : string)
| SetCaretPosition (pos : Z)
| SendVKey (key : Z)
| Select
| Press
| SetDocum.

Inductive clip_op :=
| OpenClipboard
| EmptyClipboard
| SetClipboardText (text : string)
| CloseClipboard.

(** Everything the routine does to the outside, in program order. *)
Inductive event :=
| EvGetSession (connection_index session_index : Z)
| EvUi (el : element) (a : ui_action)
| EvScroll (scroll_pos : Z)
| EvClip (op : clip_op)
| EvLog (msg : string)
| EvProgress (fraction : Q).

Inductive exn :=
| RuntimeError (msg : string)
| TimeoutError (msg : string)
| com_error (what : string)           (* raised by the COM layer *)
| clipboard_error (op : clip_op).     (* raised by win32clipboard *)

Inductive result (A : Type) :=
| Ok (a : A)
| Raise (e : exn).
Arguments Ok {A} a.
Arguments Raise {A} e.

(** The behaviour of the outside, which the routine only observes. *)
Record env := {
  platform_system : string;            (* platform.system() *)
  has_session : Z -> Z -> bool;        (* SAPGUI registered, indices valid *)
  resolves : string -> bool;           (* findById succeeds on this id *)
  Busy : nat -> bool;                  (* value of the n-th read of session.Busy *)
  read_us : nat -> nat;                (* time the n-th read of session.Busy takes,
                                          up to the reading of the clock after it *)
  oversleep_us : nat -> nat;           (* by how much the sleep after the n-th read
                                          outlasts the 0.1 s asked for *)
  clip_ok : nat -> bool                (* whether the n-th clipboard call succeeds *)
}.

(** The mutable outside: the clock in microseconds, how many times the
    busy flag and the clipboard were used, the clipboard, the table widget
    and the events so far. *)
Record world := {
  clock : Z;
  busy_reads : nat;
  clip_calls : nat;
  clip_held : bool;
  clip_text : option string;
  tbl : GuiTableControl;
  trace : list event
}.

Definition emit (e : event) (w : world) : world :=
  {| clock := clock w; busy_reads := busy_reads w; clip_calls := clip_calls w;
     clip_held := clip_held w; clip_text := clip_text w; tbl := tbl w;
     trace := trace w ++ [e] |}.

(** One read of [session.Busy], which takes [us] microseconds. *)
Definition read_busy (us : Z) (w : world) : world :=
  {| clock := clock w + us; busy_reads := S (busy_reads w); clip_calls := clip_calls w;
     clip_held := clip_held w; clip_text := clip_text w; tbl := tbl w;
     trace := trace w |}.

(** A call of [time.sleep] that lasts [us] microseconds in all. *)
Definition sleep (us : Z) (w : world) : world :=
  {| clock := clock w + us; busy_reads := busy_reads w; clip_calls := clip_calls w;
     clip_held := clip_held w; clip_text := clip_text w; tbl := tbl w;
     trace := trace w |}.

Definition set_tbl (t : GuiTableControl) (w : world) : world :=
  {| clock := clock w; busy_reads := busy_reads w; clip_calls := clip_calls w;
     clip_held := clip_held w; clip_text := clip_text w; tbl := t;
     trace := trace w |}.

(** The state change of a clipboard call that succeeded. *)
Definition clip_effect (op : clip_op) (w : world) : world :=
  let held := match op with
              | OpenClipboard => true
              | CloseClipboard => false
              | _ => clip_held w
              end in
  let text := match op with
              | EmptyClipboard => None
              | SetClipboardText t => Some t
              | _ => clip_text w
              end in
  {| clock := clock w; busy_reads := busy_reads w; clip_calls := clip_calls w;
     clip_held := held; clip_text := text; tbl := tbl w; trace := trace w |}.

Definition count_clip_call (w : world) : world :=
  {| clock := clock w; busy_reads := busy_reads w; clip_calls := S (clip_calls w);
     clip_held := clip_held w; clip_text := clip_text w; tbl := tbl w;
     trace := trace w |}.

(** *** The state-and-exception monad of the routine *)

Definition M (A : Type) : Type := world -> result A * world.

Definition ret {A} (a : A) : M A := fun w => (Ok a, w).

Definition raise {A} (e : exn) : M A := fun w => (Raise e, w).

Definition bind {A B} (m : M A) (k : A -> M B) : M B :=
  fun w =>
    match m w with
    | (Ok a, w') => k a w'
    | (Raise e, w') => (Raise e, w')
    end.

Notation "x <- m ;; k" := (bind m (fun x => k))
  (at level 61, m at next level, right associativity).
Notation "m ;; k" := (bind m (fun _ => k))
  (at level 61, right associativity).

(** [if cond: body] *)
Definition when (cond : bool) (body : M unit) : M unit :=
  if cond then body else ret tt.

(** [try: body finally: fin] *)
Definition try_finally {A} (body : M A) (fin : M unit) : M A :=
  fun w =>
    let (r, w1) := body w in
    match fin w1 with
    | (Ok _, w2) => (r, w2)
    | (Raise e, w2) => (Raise e, w2)
    end.

Definition do_emit (e : event) : M unit := fun w => (Ok tt, emit e w).

(* ===================================================================== *)
(** ** Busy-wait synchronizer *)
(* ===================================================================== *)

Definition POLL_US : Z := 100000.       (* time.sleep(0.1), in microseconds *)
Definition TIMEOUT_DEFAULT : Z := 60.   (* timeout=60, in seconds *)

Definition busy_msg : string := "SAP ficou ocupado tempo demais (Busy).".

(** The budget of [timeout] seconds, in microseconds. *)
Definition budget_us (timeout : Z) : Z := 1000000 * timeout.

(** How long the sleep after the n-th read lasts: the 0.1 s asked for plus
    what the environment adds. *)
Definition nap_us (E : env) (n : nat) : Z :=
  POLL_US + Z.of_nat (oversleep_us E n).

(** How long the n-th read of the flag takes. *)
Definition read_time (E : env) (n : nat) : Z := Z.of_nat (read_us E n).

(** An upper bound on the number of sleeps still to come when the clock
    shows [c]: each of them lasts at least [POLL_US]. *)
Definition rounds_left (t0 timeout c : Z) : nat :=
  Z.to_nat ((t0 + budget_us timeout + POLL_US - c) / POLL_US).

Arguments budget_us : simpl never.
Arguments nap_us : simpl never.
Arguments read_time : simpl never.
Arguments rounds_left : simpl never.

(** The [while session.Busy] loop; [t0] is the clock read on entry and
    [timeout] is in seconds.  The n-th read of the flag takes the time the
    environment gives it, the clock is read after the flag, and the sleep
    lasts the 0.1 s asked for plus whatever the environment adds. *)
Equations? wait_loop (E : env) (t0 timeout : Z) (w : world) : result unit * world
  by wf (rounds_left t0 timeout (clock w)) lt :=
wait_loop E t0 timeout w with Busy E (busy_reads w) := {
  | false := (Ok tt, read_busy (read_time E (busy_reads w)) w);
  | true
    with Z_gt_dec (clock w + read_time E (busy_reads w) - t0)
                  (budget_us timeout) := {
      | left _ :=
          (Raise (TimeoutError busy_msg),
           read_busy (read_time E (busy_reads w)) w);
      | right _ :=
          wait_loop E t0 timeout
            (sleep (nap_us E (busy_reads w))
               (read_busy (read_time E (busy_reads w)) w)) } }.
Proof.
  cbn [sleep read_busy clock].
  unfold rounds_left, nap_us, read_time, POLL_US in *.
  Z.div_mod_to_equations. lia.
Qed.

Definition wait_not_busy (E : env) (timeout : Z) : M unit :=
  fun w => wait_loop E (clock w) timeout w.

(** The time between the entry of the loop, taken just before the n-th
    read of the flag, and the reading of the clock that follows the read
    number [n + j]: [j] full rounds of read and sleep, and one more read. *)
Fixpoint elapsed_at (E : env) (n j : nat) : Z :=
  match j with
  | O => read_time E n
  | S j' => read_time E n + nap_us E n + elapsed_at E (S n) j'
  end.

(* ===================================================================== *)
(** ** Session connector and UI commands *)
(* ===================================================================== *)

(** [win32com.client.GetObject("SAPGUI")...Children(i).Children(j)] *)
Definition connect_sap_session (E : env) (connection_index session_index : Z)
  : M unit :=
  fun w =>
    let w1 := emit (EvGetSession connection_index session_index) w in
    if has_session E connection_index session_index then (Ok tt, w1)
    else (Raise (com_error "SAPGUI"), w1).

(** [session.findById(id)] alone. *)
Definition findById (E : env) (el : element) : M unit :=
  fun w =>
    if resolves E (SAP_IDS el) then (Ok tt, w)
    else (Raise (com_error (SAP_IDS el)), w).

(** [session.findById(id).<action>] *)
Definition ui (E : env) (el : element) (a : ui_action) : M unit :=
  findById E el ;; do_emit (EvUi el a).

(* ===================================================================== *)
(** ** Clipboard bridge *)
(* ===================================================================== *)

(** One call into [win32clipboard]: it is recorded, then succeeds or
    raises as the environment decides. *)
Definition clip_call (E : env) (op : clip_op) : M unit :=
  fun w =>
    let w1 := count_clip_call (emit (EvClip op) w) in
    if clip_ok E (clip_calls w) then (Ok tt, clip_effect op w1)
    else (Raise (clipboard_error op), w1).

Definition CRLF : string := String Py.CR (String Py.LF EmptyString).

(** [texto or ""] : [None] and the empty string both give [""]. *)
Definition or_empty (texto : option string) : string :=
  match texto with
  | Some s => s
  | None => ""
  end.

(** [(texto or "").replace("\n", "\r\n")] *)
Definition clipboard_payload (texto : option string) : string :=
  Py.replace Py.LF CRLF (or_empty texto).

Definition set_clipboard (E : env) (texto : option string) : M unit :=
  let texto := clipboard_payload texto in
  clip_call E OpenClipboard ;;
  try_finally
    (clip_call E EmptyClipboard ;;
     clip_call E (SetClipboardText texto))
    (clip_call E CloseClipboard).

(** A text follows the CRLF convention when every CR is followed at once
    by LF and every LF comes right after such a CR. *)
Fixpoint crlf_ok (s : string) : bool :=
  match s with
  | EmptyString => true
  | String c s' =>
      if Ascii.eqb c Py.CR then
        match s' with
        | String d s'' => Ascii.eqb d Py.LF && crlf_ok s''
        | EmptyString => false
        end
      else if Ascii.eqb c Py.LF then false
      else crlf_ok s'
  end.

(* ===================================================================== *)
(** ** Field-push sequencer *)
(* ===================================================================== *)

Definition is_windows (E : env) : bool :=
  Py.startswith (Py.lower (platform_system E)) "win".

Definition platform_msg : string :=
  "Este envio ao SAP requer Windows (SAP GUI + COM).".

Definition ensure_visible_tbl (abs_row visible_rows : Z) : M Z :=
  fun w =>
    let (t, vis_row) := ensure_visible (tbl w) abs_row visible_rows in
    (Ok vis_row, emit (EvScroll (VerticalScrollbar_Position t)) (set_tbl t w)).

Definition open_iw32_and_load_os (E : env) (os_str : string) : M unit :=
  ui E OKCD_ID (SetText "/nIW32") ;;
  ui E WND0 (SendVKey 0) ;;
  wait_not_busy E TIMEOUT_DEFAULT ;;
  ui E OS_FIELD_ID (SetText os_str) ;;
  ui E OS_FIELD_ID (SetCaretPosition (Z.of_nat (String.length os_str))) ;;
  ui E WND0 (SendVKey 0) ;;
  wait_not_busy E TIMEOUT_DEFAULT.

(** [(i + 1) / max(total, 1)], kept as the exact quotient. *)
Definition progress_fraction (i total : Z) : Q :=
  Qmake (i + 1) (Z.to_pos (Z.max total 1)).

Section PushToSap.

Variable E : env.
Variables (os_str : string) (visible_rows : Z) (save_after : bool).
Variables (connection_index session_index : Z).
(** Whether [progress_cb] and [log_cb] were passed. *)
Variables (progress_cb log_cb : bool).

Definition log_row (i total : Z) : string :=
  ("Linha " ++ Py.str_int (i + 1) ++ "/" ++ Py.str_int total
   ++ ": texto longo aplicado.")%string.

(** The body of [for i, texto in enumerate(long_texts)], from index [i]. *)
Fixpoint push_rows (total i : Z) (texts : list string) : M unit :=
  match texts with
  | [] => ret tt
  | texto :: rest =>
      when progress_cb (do_emit (EvProgress (progress_fraction i total))) ;;
      vis_row <- ensure_visible_tbl i visible_rows ;;
      ui E (BTN_TEXTO_LONGO vis_row) Press ;;
      wait_not_busy E TIMEOUT_DEFAULT ;;
      set_clipboard E (Some texto) ;;
      ui E LONGTEXT_SHELL_ID SetDocum ;;
      wait_not_busy E TIMEOUT_DEFAULT ;;
      ui E BTN_BACK_ID Press ;;
      wait_not_busy E TIMEOUT_DEFAULT ;;
      when log_cb (do_emit (EvLog (log_row i total))) ;;
      push_rows total (i + 1) rest
  end.

Definition push_to_sap (long_texts : list string) : M bool :=
  if negb (is_windows E) then raise (RuntimeError platform_msg)
  else
    connect_sap_session E connection_index session_index ;;
    ui E WND0 Maximize ;;
    when log_cb
      (do_emit (EvLog ("Abrindo IW32 e carregando OS " ++ os_str ++ "...")%string)) ;;
    open_iw32_and_load_os E os_str ;;
    ui E TAB_OPERACOES_ID Select ;;
    wait_not_busy E TIMEOUT_DEFAULT ;;
    findById E TBL_PATH ;;
    let total := Z.of_nat (List.length long_texts) in
    push_rows total 0 long_texts ;;
    when save_after
      (when log_cb (do_emit (EvLog "Salvando a ordem...")) ;;
       ui E BTN_SAVE_ID Press ;;
       wait_not_busy E TIMEOUT_DEFAULT) ;;
    when progress_cb (do_emit (EvProgress 1)) ;;
    ret true.

End PushToSap.

(** *** Reading a trace *)

Definition progress_values (tr : list event) : list Q :=
  flat_map (fun e => match e with EvProgress q => [q] | _ => [] end) tr.

(** The (relative row, scroll position) pairs of a trace: each press of a
    long-text button, with the scroll position in force at that moment. *)
Fixpoint row_pairs (pos : Z) (tr : list event) : list (Z * Z) :=
  match tr with
  | [] => []
  | EvScroll p :: tr' => row_pairs p tr'
  | EvUi (BTN_TEXTO_LONGO r) Press :: tr' => (r, pos) :: row_pairs pos tr'
  | _ :: tr' => row_pairs pos tr'
  end.

Definition E_windows : env :=
  {| platform_system := "Windows";
     has_session := fun _ _ => true;
     resolves := fun _ => true;
     Busy := fun _ => false;
     read_us := fun _ => 0%nat;
     oversleep_us := fun _ => 0%nat;
     clip_ok := fun _ => true |}.

Definition E_linux : env :=
  {| platform_system := "Linux";
     has_session := fun _ _ => true;
     resolves := fun _ => true;
     Busy := fun _ => false;
     read_us := fun _ => 0%nat;
     oversleep_us := fun _ => 0%nat;
     clip_ok := fun _ => true |}.

(** A session that stays busy for ever. *)
Definition E_stuck : env :=
  {| platform_system := "Windows";
     has_session := fun _ _ => true;
     resolves := fun _ => true;
     Busy := fun _ => true;
     read_us := fun _ => 0%nat;
     oversleep_us := fun _ => 0%nat;
     clip_ok := fun _ => true |}.

(** A session that stays busy, on a machine where every read of the flag
    takes 20 microseconds and every sleep lasts 180 microseconds too long. *)
Definition E_slow : env :=
  {| platform_system := "Windows";
     has_session := fun _ _ => true;
     resolves := fun _ => true;
     Busy := fun _ => true;
     read_us := fun _ => 20%nat;
     oversleep_us := fun _ => 180%nat;
     clip_ok := fun _ => true |}.

(** Everything works but the third clipboard call, the [SetClipboardText]
    of the first row. *)
Definition E_clip_fails : env :=
  {| platform_system := "Windows";
     has_session := fun _ _ => true;
     resolves := fun _ => true;
     Busy := fun _ => false;
     read_us := fun _ => 0%nat;
     oversleep_us := fun _ => 0%nat;
     clip_ok := fun n => negb (Nat.eqb n 2) |}.

Definition w_init : world :=
  {| clock := 0; busy_reads := 0; clip_calls := 0; clip_held := false;
     clip_text := None; tbl := {| VerticalScrollbar_Position := 0 |};
     trace := [] |}.

(** *** What a run is expected to leave in the trace

    These are not part of the program: they spell out, event by event,
    what the statements of [push_to_sap] produce when nothing fails, and
    the theorems below relate the program to them. *)

(** The session answers in time: a wait that starts with any read of the
    busy flag finds the flag clear at some read, and every reading of the
    clock before that one is within the default budget of 60 s. *)
Definition responsive (E : env) : Prop :=
  forall n : nat, exists k : nat,
    Busy E (n + k) = false /\
    forall j, (j < k)%nat -> elapsed_at E n j <= budget_us TIMEOUT_DEFAULT.

(** An environment in which nothing goes wrong: Windows, the session is
    there, every element resolves, the session answers in time and the
    clipboard always obeys. *)
Definition cooperative (E : env) : Prop :=
  is_windows E = true /\
  (forall c s, has_session E c s = true) /\
  (forall id, resolves E id = true) /\
  responsive E /\
  (forall n, clip_ok E n = true).

Definition opt_event (cond : bool) (e : event) : list event :=
  if cond then [e] else [].

(** One iteration of the loop for row [i]. *)
Definition row_events (visible_rows : Z) (progress_cb log_cb : bool)
  (total i : Z) (texto : string) : list event :=
  opt_event progress_cb (EvProgress (progress_fraction i total)) ++
  [ EvScroll (scroll_of i visible_rows);
    EvUi (BTN_TEXTO_LONGO (i - scroll_of i visible_rows)) Press;
    EvClip OpenClipboard;
    EvClip EmptyClipboard;
    EvClip (SetClipboardText (clipboard_payload (Some texto)));
    EvClip CloseClipboard;
    EvUi LONGTEXT_SHELL_ID SetDocum;
    EvUi BTN_BACK_ID Press ] ++
  opt_event log_cb (EvLog (log_row i total)).

Fixpoint rows_events (visible_rows : Z) (progress_cb log_cb : bool)
  (total i : Z) (texts : list string) : list event :=
  match texts with
  | [] => []
  | texto :: rest =>
      row_events visible_rows progress_cb log_cb total i texto ++
      rows_events visible_rows progress_cb log_cb total (i + 1) rest
  end.

(** Connection, navigation to the order and tab selection. *)
Definition prologue_events (os_str : string) (connection_index session_index : Z)
  (log_cb : bool) : list event :=
  [ EvGetSession connection_index session_index; EvUi WND0 Maximize ] ++
  opt_event log_cb (EvLog ("Abrindo IW32 e carregando OS " ++ os_str ++ "...")%string) ++
  [ EvUi OKCD_ID (SetText "/nIW32");
    EvUi WND0 (SendVKey 0);
    EvUi OS_FIELD_ID (SetText os_str);
    EvUi OS_FIELD_ID (SetCaretPosition (Z.of_nat (String.length os_str)));
    EvUi WND0 (SendVKey 0);
    EvUi TAB_OPERACOES_ID Select ].

(** The optional save and the closing progress report. *)
Definition epilogue_events (save_after progress_cb log_cb : bool) : list event :=
  (if save_after
   then opt_event log_cb (EvLog "Salvando a ordem...") ++ [EvUi BTN_SAVE_ID Press]
   else []) ++
  opt_event progress_cb (EvProgress 1).

Definition run_events (os_str : string) (visible_rows : Z) (save_after : bool)
  (connection_index session_index : Z) (progress_cb log_cb : bool)
  (long_texts : list string) : list event :=
  prologue_events os_str connection_index session_index log_cb ++
  rows_events visible_rows progress_cb log_cb
    (Z.of_nat (List.length long_texts)) 0 long_texts ++
  epilogue_events save_after progress_cb log_cb.

(** [m] succeeds from every world, returns [a] and adds exactly [evs]. *)
Definition always_ok {A} (m : M A) (a : A) (evs : list event) : Prop :=
  forall w : world, exists w' : world,
    m w = (Ok a, w') /\ trace w' = trace w ++ evs.

(** Position of the first event that satisfies [p]. *)
Fixpoint find_index (p : event -> bool) (tr : list event) : option nat :=
  match tr with
  | [] => None
  | e :: tr' => if p e then Some 0%nat else option_map S (find_index p tr')
  end.

Definition is_progress (e : event) : bool :=
  match e with EvProgress _ => true | _ => false end.

Definition is_back_press (e : event) : bool :=
  match e with EvUi BTN_BACK_ID Press => true | _ => false end.

Definition is_scroll (e : event) : bool :=
  match e with EvScroll _ => true | _ => false end.

(** The part of the world that [wait_not_busy] must leave alone. *)
Definition same_outside (w w' : world) : Prop :=
  clip_calls w' = clip_calls w /\ clip_held w' = clip_held w /\
  clip_text w' = clip_text w /\ tbl w' = tbl w /\ trace w' = trace w.

(** What a run of the polling loop entered at clock [t0] does: [k + 1]
    reads of the flag with a sleep after each of the first [k], which found
    the flag set and the clock within the budget, and a last read that
    decides. *)
Definition wait_post (E : env) (t0 timeout : Z) (w : world)
  (out : result unit * world) : Prop :=
  exists k : nat,
    let w' := snd out in
    busy_reads w' = (busy_reads w + k + 1)%nat /\
    clock w' = clock w + elapsed_at E (busy_reads w) k /\
    same_outside w w' /\
    (forall j, (j < k)%nat ->
       Busy E (busy_reads w + j) = true /\
       clock w + elapsed_at E (busy_reads w) j - t0 <= budget_us timeout) /\
    match fst out with
    | Ok _ => Busy E (busy_reads w + k) = false
    | Raise e =>
        e = TimeoutError busy_msg /\ Busy E (busy_reads w + k) = true /\
        budget_us timeout < clock w' - t0
    end.

(* ===================================================================== *)
(** ** Spreadsheet utilities and row selection *)
(* ===================================================================== *)

Module Latin1.

(** The letter a with acute accent, code point 225. *)
Definition a_acute : ascii := "225"%char.

(** [c.lower()] for a code point below 256: the ASCII capitals and the
    accented capitals 192..222 (the multiplication sign 215 apart) move up
    by 32. *)
Definition lower_char (c : ascii) : ascii :=
  let n := nat_of_ascii c in
  if (((65 <=? n) && (n <=? 90)) || ((192 <=? n) && (n <=? 214))
      || ((216 <=? n) && (n <=? 222)))%nat
  then ascii_of_nat (n + 32) else c.

(** [s.lower()] *)
Fixpoint lower (s : string) : string :=
  match s with
  | EmptyString => EmptyString
  | String c s' => String (lower_char c) (lower s')
  end.

(** [sub in s] for strings. *)
Fixpoint contains (sub s : string) : bool :=
  String.prefix sub s ||
  match s with
  | EmptyString => false
  | String _ s' => contains sub s'
  end.

End Latin1.

(** The column names the loader looks for, in lower case. *)
Definition STATUS_KEY : string := "status".
Definition MASCARA_KEY : string := String "m" (String Latin1.a_acute "scara").
Definition MASCARA_PLAIN_KEY : string := "mascara".
Definition STATUS_NAME : string := "Status".
Definition MASCARA_NAME : string := String "M" (String Latin1.a_acute "scara").

(** A column label: a [str], or any other object given by its [str(c)]. *)
Inductive label :=
| ColStr (s : string)
| ColObj (str_c : string).

(** [str(c)] *)
Definition str_label (c : label) : string :=
  match c with
  | ColStr s => s
  | ColObj s => s
  end.

Definition _normalize_cols (cols : list label) : list label :=
  map (fun c => match c with
                | ColStr s => ColStr (Py.strip s)
                | ColObj _ => c
                end) cols.

(** [x in row] for a list of strings. *)
Definition mem (x : string) (row : list string) : bool :=
  existsb (String.eqb x) row.

(** The test of [autodetect_header_row] on one previewed row, given by the
    [str] of each of its cells. *)
Definition header_like (row : list string) : bool :=
  let row := map (fun v => Latin1.lower (Py.strip v)) row in
  mem "os" row && (mem MASCARA_KEY row || mem MASCARA_PLAIN_KEY row).

(** The loop of [autodetect_header_row] over the previewed rows, from
    index [idx]. *)
Fixpoint autodetect_from (idx : nat) (preview : list (list string)) : option nat :=
  match preview with
  | [] => None
  | row :: rest =>
      if header_like row then Some idx else autodetect_from (S idx) rest
  end.

(** [autodetect_header_row], on the frame read by [pd.read_excel]. *)
Definition autodetect_header_row (preview : list (list string)) : option nat :=
  autodetect_from 0 preview.

(** The dictionary [rename_map] built by [load_dataframe], as the list of
    its assignments in program order. *)
Fixpoint rename_map (cols : list label) : list (string * string) :=
  match cols with
  | [] => []
  | ColStr c :: rest =>
      let k := Latin1.lower (Py.strip c) in
      (if String.eqb k STATUS_KEY then [(c, STATUS_NAME)] else []) ++
      (if String.eqb k MASCARA_KEY || String.eqb k MASCARA_PLAIN_KEY
       then [(c, MASCARA_NAME)] else []) ++
      rename_map rest
  | ColObj _ :: rest => rename_map rest
  end.

(** [d[k]] after the assignments [d]: the last one to [k] counts. *)
Fixpoint dict_get (d : list (string * string)) (k : string) : option string :=
  match d with
  | [] => None
  | (k', v) :: d' =>
      match dict_get d' k with
      | Some v' => Some v'
      | None => if String.eqb k' k then Some v else None
      end
  end.

(** [df.rename(columns=d)] on the column labels. *)
Definition rename_columns (d : list (string * string)) (cols : list label)
  : list label :=
  map (fun c => match c with
                | ColStr s => match dict_get d s with
                              | Some v => ColStr v
                              | None => c
                              end
                | ColObj _ => c
                end) cols.

(** The columns of the frame returned by [load_dataframe], from the
    columns read from the sheet. *)
Definition load_dataframe_columns (cols : list label) : list label :=
  let cols := _normalize_cols cols in
  let d := rename_map cols in
  match d with
  | [] => cols
  | _ => rename_columns d cols
  end.

(** What [load_dataframe] does to one column. *)
Definition canonical_col (c : label) : label :=
  match c with
  | ColStr s =>
      let s := Py.strip s in
      let k := Latin1.lower (Py.strip s) in
      if String.eqb k MASCARA_KEY || String.eqb k MASCARA_PLAIN_KEY
      then ColStr MASCARA_NAME
      else if String.eqb k STATUS_KEY then ColStr STATUS_NAME
      else ColStr s
  | ColObj _ => c
  end.

(** The key under which a column is compared: [str(c).strip().lower()]. *)
Definition col_key (c : label) : string :=
  Latin1.lower (Py.strip (str_label c)).

(** [_suggest(name)]; [None] stands for the [IndexError] of [cols[0]] on
    an empty list. *)
Definition _suggest (cols : list label) (name : string) : option label :=
  let name := Latin1.lower name in
  match find (fun c => String.eqb (col_key c) name) cols with
  | Some c => Some c
  | None =>
      match find (fun c => Latin1.contains name (col_key c)) cols with
      | Some c => Some c
      | None => hd_error cols
      end
  end.

(** [Series.unique()]: the distinct values in order of first appearance;
    [seen] holds the values already met. *)
Fixpoint unique_from (seen l : list string) : list string :=
  match l with
  | [] => []
  | x :: l' =>
      if mem x seen then unique_from seen l'
      else x :: unique_from (x :: seen) l'
  end.

Definition unique (l : list string) : list string := unique_from [] l.

(** [os_list = work["OS_str"].dropna().unique().tolist()]; the column holds
    strings only, so [dropna] drops nothing. *)
Definition os_list {row : Type} (os_cell : row -> cell) (df : list row)
  : list string :=
  unique (map snd (work os_cell df)).

(** [rows_os = work[work["OS_str"] == selected_os]] *)
Definition rows_os {row : Type} (os_cell : row -> cell) (df : list row)
  (selected_os : string) : list (row * string) :=
  filter (fun r => String.eqb (snd r) selected_os) (work os_cell df).

(** Every character of [s] satisfies [p]. *)
Fixpoint all_chars (p : ascii -> bool) (s : string) : bool :=
  match s with
  | EmptyString => true
  | String c s' => p c && all_chars p s'
  end.

(** The characters of [str(n)]: the ten digits and the minus sign. *)
Definition is_int_char (c : ascii) : bool :=
  let n := nat_of_ascii c in
  ((48 <=? n) && (n <=? 57))%nat || (n =? 45)%nat.

(** *** Statements about every run, failing or not *)

(** [m] can only add events that satisfy [ok_ev], never turns the clock
    back, and never raises [RuntimeError]. *)
Definition obeys (ok_ev : event -> bool) {A} (m : M A) : Prop :=
  forall w : world,
    (exists evs : list event,
       trace (snd (m w)) = trace w ++ evs /\ forallb ok_ev evs = true) /\
    clock w <= clock (snd (m w)) /\
    (forall msg, fst (m w) <> Raise (RuntimeError msg)).

(** [m], started with the clipboard released, leaves it released, unless
    it ends with the error of a [CloseClipboard] that failed. *)
Definition releases (E : env) {A} (m : M A) : Prop :=
  forall w : world,
    clip_held w = false ->
    clip_held (snd (m w)) = false \/
    (fst (m w) = Raise (clipboard_error CloseClipboard) /\
     clip_ok E (pred (clip_calls (snd (m w)))) = false).




Definition is_save_press (e : event) : bool :=
  match e with EvUi BTN_SAVE_ID Press => true | _ => false end.


(* ===================================================================== *)
(** * Properties *)
(* ===================================================================== *)

(** ** Row-visibility calculator *)

Lemma ensure_visible_eq tbl abs_row visible_rows :
  ensure_visible tbl abs_row visible_rows =
  ({| VerticalScrollbar_Position := scroll_of abs_row visible_rows |},
   abs_row - scroll_of abs_row visible_rows).
Proof. reflexivity. Qed.

Lemma scroll_of_cases abs_row visible_rows :
  (abs_row < visible_rows /\ scroll_of abs_row visible_rows = 0) \/
  (visible_rows <= abs_row /\
   scroll_of abs_row visible_rows = abs_row - (visible_rows - 1)).
Proof.
  unfold scroll_of, ensure_visible; simpl.
  destruct (Z.ltb_spec abs_row visible_rows); [left | right]; split; auto.
Qed.

(** C1: for [absoluteRow >= 0] and [visibleRows > 0], [ensure_visible]
    leaves scroll position 0 on the table when [absoluteRow < visibleRows]
    and [absoluteRow - (visibleRows - 1)] otherwise; the returned relative
    row is [absoluteRow - scrollPosition], lies in [[0, visibleRows)], and
    the scroll position is not negative.  With [visibleRows = 15],
    [absoluteRow = 100] gives scroll position 86 and relative row 14. *)
Theorem ensure_visible_spec (t : GuiTableControl) (absoluteRow visibleRows : Z) :
  0 <= absoluteRow -> 0 < visibleRows ->
  let scrollPosition :=
    VerticalScrollbar_Position (fst (ensure_visible t absoluteRow visibleRows)) in
  let relativeRow := snd (ensure_visible t absoluteRow visibleRows) in
  (absoluteRow < visibleRows -> scrollPosition = 0) /\
  (visibleRows <= absoluteRow ->
   scrollPosition = absoluteRow - (visibleRows - 1)) /\
  relativeRow = absoluteRow - scrollPosition /\
  0 <= absoluteRow - scrollPosition < visibleRows /\
  0 <= scrollPosition /\
  ensure_visible t 100 15 = ({| VerticalScrollbar_Position := 86 |}, 14).
Proof.
  intros Ha Hv. rewrite ensure_visible_eq. cbn [fst snd VerticalScrollbar_Position].
  destruct (scroll_of_cases absoluteRow visibleRows) as [[Hlt ->] | [Hge ->]];
    repeat split; intros; try lia; reflexivity.
Qed.

Lemma ensure_visible_spec_witness :
  0 <= 100 /\ 0 < 15 /\
  VerticalScrollbar_Position
    (fst (ensure_visible {| VerticalScrollbar_Position := 7 |} 100 15)) = 86 /\
  snd (ensure_visible {| VerticalScrollbar_Position := 7 |} 100 15) = 14.
Proof.
  assert (Ha : 0 <= 100) by lia.
  assert (Hv : 0 < 15) by lia.
  pose proof (ensure_visible_spec {| VerticalScrollbar_Position := 7 |} 100 15 Ha Hv)
    as H.
  cbv zeta in H. destruct H as (_ & H2 & H3 & _).
  split; [exact Ha | split; [exact Hv | split]].
  - apply H2. lia.
  - exact H3.
Defined.

(** C6: for a fixed [visibleRows > 0], the scroll position that
    [ensure_visible] puts on the table is monotone non-decreasing in the
    absolute row, whatever the table held before: going through the rows in
    increasing order never scrolls backward. *)
Theorem ensure_visible_monotone (t1 t2 : GuiTableControl) (visibleRows a b : Z) :
  0 < visibleRows -> a <= b ->
  VerticalScrollbar_Position (fst (ensure_visible t1 a visibleRows)) <=
  VerticalScrollbar_Position (fst (ensure_visible t2 b visibleRows)).
Proof.
  intros Hv Hab. rewrite !ensure_visible_eq. cbn [fst VerticalScrollbar_Position].
  destruct (scroll_of_cases a visibleRows) as [[? ->] | [? ->]];
    destruct (scroll_of_cases b visibleRows) as [[? ->] | [? ->]]; lia.
Qed.

Lemma ensure_visible_monotone_witness :
  VerticalScrollbar_Position
    (fst (ensure_visible {| VerticalScrollbar_Position := 40 |} 14 15)) <=
  VerticalScrollbar_Position
    (fst (ensure_visible {| VerticalScrollbar_Position := 0 |} 15 15)).
Proof. apply ensure_visible_monotone; lia. Defined.

(** ** Identifier coercion *)

Lemma in_with_OS_str (row : Type) (os_cell : row -> cell) (df : list row) r s :
  In (r, s) (with_OS_str os_cell df) <-> In r df /\ s = _conv (os_cell r).
Proof.
  unfold with_OS_str, coerce_os_to_str.
  induction df as [|x df IH]; simpl.
  - tauto.
  - rewrite IH. split.
    + intros [Heq | [Hin Hs]]; [inversion Heq; subst; auto | auto].
    + intros [[-> | Hin] ->]; auto.
Qed.

(** C3: [_conv] maps the float 6000794541.0 to ["6000794541"], leaves the
    string ["6000794541"] as it is, maps a missing value ([None] or NaN)
    and the empty string to [""]; and the workable set keeps exactly the
    rows whose coerced identifier is not empty. *)
Theorem coerce_os_to_str_spec :
  (valid_binary 53 1024 f_6000794541_0 = true /\
   f_6000794541_0 = S754_finite false 6292289136623616 (-20) /\
   6292289136623616 = 6000794541 * 2 ^ 20) /\
  coerce_os_to_str [PyFloat f_6000794541_0; PyStr "6000794541"; PyNone;
                    PyFloat S754_nan; PyStr ""] =
    ["6000794541"; "6000794541"; ""; ""; ""] /\
  forall (row : Type) (os_cell : row -> cell) (df : list row) (r : row) (s : string),
    In (r, s) (work os_cell df) <->
    (In r df /\ s = _conv (os_cell r) /\ s <> "").
Proof.
  split; [repeat split |]. split; [reflexivity |].
  intros row os_cell df r s. unfold work.
  rewrite filter_In, in_with_OS_str. cbn [snd].
  destruct (String.eqb_spec s ""); simpl; intuition congruence.
Qed.

Lemma str_int_not_inf z : Py.str_int z <> "inf".
Proof.
  unfold Py.str_int.
  destruct z as [|p|p]; cbn [Z.to_int NilZero.string_of_int]; try discriminate;
    destruct (Pos.to_uint p); discriminate.
Qed.

Lemma str_int_not_minus_inf z : Py.str_int z <> "-inf".
Proof.
  unfold Py.str_int.
  destruct z as [|p|p]; cbn [Z.to_int NilZero.string_of_int]; try discriminate;
    destruct (Pos.to_uint p); discriminate.
Qed.

(** C10, as stated, fails: positive infinity is a float that is not NaN,
    [int] raises [OverflowError] on it, the handler returns [str(x)], and
    the result ["inf"] is the decimal form of no integer. *)
Lemma conv_infinity_not_truncated :
  isna (PyFloat (S754_infinity false)) = false /\
  Py.int_of_float (S754_infinity false) = Py.OverflowError /\
  _conv (PyFloat (S754_infinity false)) = "inf" /\
  forall z : Z, _conv (PyFloat (S754_infinity false)) <> Py.str_int z.
Proof.
  repeat split. intros z H. symmetry in H. revert H. apply str_int_not_inf.
Qed.

Lemma int_of_finite_trunc (s : bool) (m : positive) (e : Z) :
  let z := Py.int_of_finite s m e in
  (0 <= e -> Z.abs z = Z.pos m * 2 ^ e) /\
  (e < 0 -> Z.abs z * 2 ^ (- e) <= Z.pos m < (Z.abs z + 1) * 2 ^ (- e)) /\
  (if s then z <= 0 else 0 <= z).
Proof.
  cbv zeta. unfold Py.int_of_finite.
  assert (Hnn : 0 <= Z.shiftl (Z.pos m) e) by (apply Z.shiftl_nonneg; lia).
  assert (Habs : Z.abs (if s then - Z.shiftl (Z.pos m) e else Z.shiftl (Z.pos m) e)
                 = Z.shiftl (Z.pos m) e) by (destruct s; lia).
  rewrite Habs. split; [| split].
  - intros He. apply Z.shiftl_mul_pow2; assumption.
  - intros He.
    replace e with (- (- e)) at 1 3 by lia.
    rewrite Z.shiftl_opp_r, Z.shiftr_div_pow2 by lia.
    assert (Hd : 0 < 2 ^ (- e)) by (apply Z.pow_pos_nonneg; lia).
    pose proof (Z.mul_div_le (Z.pos m) _ Hd).
    pose proof (Z.mul_succ_div_gt (Z.pos m) _ Hd).
    lia.
  - destruct s; lia.
Qed.

(** C10, amended: for every finite float, [_conv] gives the decimal form of
    the value truncated toward zero (the integer of largest magnitude not
    beyond the value, with its sign), so the binary64 value of 6000794541.9
    gives ["6000794541"]; a zero gives ["0"]; an infinite float is not
    truncated: it comes out as ["inf"] or ["-inf"]. *)
Theorem conv_finite_float_truncates (s : bool) (m : positive) (e : Z) :
  let z := Py.int_of_finite s m e in
  _conv (PyFloat (S754_finite s m e)) = Py.str_int z /\
  (0 <= e -> Z.abs z = Z.pos m * 2 ^ e) /\
  (e < 0 -> Z.abs z * 2 ^ (- e) <= Z.pos m < (Z.abs z + 1) * 2 ^ (- e)) /\
  (if s then z <= 0 else 0 <= z) /\
  _conv (PyFloat (S754_zero s)) = "0" /\
  _conv (PyFloat (S754_infinity s)) = (if s then "-inf" else "inf") /\
  (valid_binary 53 1024 f_6000794541_9 = true /\
   _conv (PyFloat f_6000794541_9) = "6000794541").
Proof.
  cbv zeta. split; [reflexivity |].
  pose proof (int_of_finite_trunc s m e) as (H1 & H2 & H3).
  repeat split; try assumption; try (apply H2; assumption);
    destruct s; reflexivity.
Qed.

Lemma conv_finite_float_truncates_witness :
  _conv (PyFloat (S754_finite true 3 (-1))) = "-1" /\
  Z.abs (Py.int_of_finite true 3 (-1)) * 2 ^ 1 <= 3
    < (Z.abs (Py.int_of_finite true 3 (-1)) + 1) * 2 ^ 1.
Proof.
  pose proof (conv_finite_float_truncates true 3 (-1)) as (H1 & _ & H3 & _).
  split; [exact H1 | apply H3; lia].
Defined.

(** ** Busy-wait synchronizer *)

Ltac world_fields :=
  cbn [fst snd sleep read_busy emit set_tbl clip_effect count_clip_call
       busy_reads clock clip_calls clip_held clip_text tbl trace] in *.

Lemma elapsed_at_nonneg (E : env) (j : nat) : forall n, 0 <= elapsed_at E n j.
Proof.
  induction j as [|j IH]; intros n; cbn [elapsed_at];
    unfold read_time, nap_us, POLL_US; [lia |].
  specialize (IH (S n)). unfold read_time, nap_us, POLL_US in IH. lia.
Qed.

(** One more round at the end of the time elapsed. *)
Lemma elapsed_at_last (E : env) (j : nat) : forall n,
  elapsed_at E n (S j) =
  elapsed_at E n j + nap_us E (n + j) + read_time E (n + S j).
Proof.
  induction j as [|j IH]; intros n.
  - cbn [elapsed_at]. rewrite Nat.add_0_r, Nat.add_1_r. lia.
  - change (elapsed_at E n (S (S j)))
      with (read_time E n + nap_us E n + elapsed_at E (S n) (S j)).
    rewrite (IH (S n)).
    change (elapsed_at E n (S j))
      with (read_time E n + nap_us E n + elapsed_at E (S n) j).
    replace (S n + j)%nat with (n + S j)%nat by lia.
    replace (S n + S j)%nat with (n + S (S j))%nat by lia. lia.
Qed.

Lemma wait_loop_post E t0 timeout w :
  wait_post E t0 timeout w (wait_loop E t0 timeout w).
Proof.
  apply (wait_loop_elim wait_post); clear; unfold wait_post, same_outside.
  - intros E t0 timeout w Hb. exists 0%nat. world_fields. cbn [elapsed_at].
    rewrite !Nat.add_0_r. repeat split; try lia. assumption.
  - intros E t0 timeout w g _ Hb. exists 0%nat. world_fields. cbn [elapsed_at].
    rewrite !Nat.add_0_r. repeat split; try lia. assumption.
  - intros E t0 timeout w n IH _ Hb.
    destruct IH as (k & Hr & Hc & Hs & Hall & Hres).
    exists (S k). cbv zeta in *. world_fields.
    change (elapsed_at E (busy_reads w) (S k))
      with (read_time E (busy_reads w) + nap_us E (busy_reads w)
            + elapsed_at E (S (busy_reads w)) k).
    split; [lia |]. split; [lia |].
    split; [assumption |]. split.
    + intros [|j] Hj.
      * rewrite Nat.add_0_r. cbn [elapsed_at]. split; [assumption | lia].
      * destruct (Hall j ltac:(lia)) as [Hbj Hcj].
        replace (busy_reads w + S j)%nat with (S (busy_reads w) + j)%nat by lia.
        change (elapsed_at E (busy_reads w) (S j))
          with (read_time E (busy_reads w) + nap_us E (busy_reads w)
                + elapsed_at E (S (busy_reads w)) j).
        split; [assumption | lia].
    + replace (busy_reads w + S k)%nat with (S (busy_reads w) + k)%nat by lia.
      exact Hres.
Qed.

(** C4: [wait_not_busy] asks for a sleep of 0.1 s between two reads of the
    busy flag and returns at the first read that finds the flag clear,
    without a further sleep.  When it fails, it fails with the timeout
    error: the flag was set at every read, the clock read after the last
    one is beyond the budget (never before), and the clock read one round
    earlier was still within it, so the error comes at most one round (one
    sleep and one read) after the budget has run out.  A flag that never
    clears always ends in the timeout error.  Reads and sleeps last what
    the environment makes them last, a sleep never less than the 0.1 s
    asked for: with reads of 20 microseconds and sleeps 180 microseconds
    too long, a budget of 1 s ends at the 11th read, 1.00202 s after
    entry. *)
Theorem wait_not_busy_spec (E : env) (timeout : Z) (w : world) :
  0 <= timeout ->
  (POLL_US = 100000 /\ TIMEOUT_DEFAULT = 60 /\
   budget_us timeout = 1000000 * timeout /\
   forall n, read_time E n = Z.of_nat (read_us E n) /\
             nap_us E n = POLL_US + Z.of_nat (oversleep_us E n)) /\
  (exists k : nat,
     let r := fst (wait_not_busy E timeout w) in
     let w' := snd (wait_not_busy E timeout w) in
     let n := busy_reads w in
     busy_reads w' = (n + k + 1)%nat /\
     clock w' = clock w + elapsed_at E n k /\
     same_outside w w' /\
     (forall j, (j < k)%nat ->
        Busy E (n + j) = true /\ elapsed_at E n j <= budget_us timeout) /\
     match r with
     | Ok _ => Busy E (n + k) = false
     | Raise e =>
         e = TimeoutError busy_msg /\
         Busy E (n + k) = true /\
         budget_us timeout < elapsed_at E n k /\
         elapsed_at E n k <=
           budget_us timeout +
           match k with
           | O => read_time E n
           | S k' => nap_us E (n + k') + read_time E (n + k)
           end
     end) /\
  ((forall n, Busy E n = true) ->
   fst (wait_not_busy E timeout w) = Raise (TimeoutError busy_msg)) /\
  (fst (wait_not_busy E_slow 1 w_init) = Raise (TimeoutError busy_msg) /\
   busy_reads (snd (wait_not_busy E_slow 1 w_init)) = 11%nat /\
   clock (snd (wait_not_busy E_slow 1 w_init)) = 1002020).
Proof.
  intros Ht.
  assert (Hpost : exists k : nat,
     let r := fst (wait_not_busy E timeout w) in
     let w' := snd (wait_not_busy E timeout w) in
     let n := busy_reads w in
     busy_reads w' = (n + k + 1)%nat /\
     clock w' = clock w + elapsed_at E n k /\
     same_outside w w' /\
     (forall j, (j < k)%nat ->
        Busy E (n + j) = true /\ elapsed_at E n j <= budget_us timeout) /\
     match r with
     | Ok _ => Busy E (n + k) = false
     | Raise e =>
         e = TimeoutError busy_msg /\
         Busy E (n + k) = true /\
         budget_us timeout < elapsed_at E n k /\
         elapsed_at E n k <=
           budget_us timeout +
           match k with
           | O => read_time E n
           | S k' => nap_us E (n + k') + read_time E (n + k)
           end
     end).
  { unfold wait_not_busy.
    destruct (wait_loop_post E (clock w) timeout w) as (k & Hr & Hc & Hs & Hall & Hres).
    exists k. cbv zeta in *.
    split; [exact Hr |]. split; [exact Hc |]. split; [exact Hs |].
    split.
    { intros j Hj. destruct (Hall j Hj) as [Hb Hle]. split; [exact Hb | lia]. }
    destruct (fst (wait_loop E (clock w) timeout w)) as [u | e]; [exact Hres |].
    destruct Hres as (He & Hb & Hlt).
    split; [exact He |]. split; [exact Hb |]. split; [lia |].
    destruct k as [|k].
    - cbn [elapsed_at]. unfold budget_us. lia.
    - destruct (Hall k ltac:(lia)) as [_ Hle].
      rewrite elapsed_at_last. lia. }
  split; [repeat split |]. split; [exact Hpost |].
  split.
  - intros Hbusy. destruct Hpost as (k & _ & _ & _ & _ & Hres). cbv zeta in *.
    destruct (fst (wait_not_busy E timeout w)) as [u | e].
    + rewrite Hbusy in Hres. discriminate.
    + destruct Hres as (-> & _). reflexivity.
  - repeat split; vm_compute; reflexivity.
Qed.

Lemma wait_not_busy_spec_witness :
  0 <= 60 /\
  fst (wait_not_busy E_stuck 60 w_init) = Raise (TimeoutError busy_msg).
Proof.
  assert (Ht : 0 <= 60) by lia.
  destruct (wait_not_busy_spec E_stuck 60 w_init Ht) as (_ & _ & Hstuck & _).
  split; [exact Ht |].
  apply Hstuck. intros n. reflexivity.
Defined.

(** ** Clipboard bridge *)

(** C7: on a text that already has a CR LF line break, [set_clipboard]
    replaces the LF and keeps the CR, so the clipboard receives CR CR LF:
    the input followed the CRLF convention and the text written does not,
    against the aim stated in the source of preserving the line breaks. *)
Theorem set_clipboard_crlf_input_doubles_cr :
  let texto := String "a" (String Py.CR (String Py.LF "b")) in
  let written := String "a" (String Py.CR (String Py.CR (String Py.LF "b"))) in
  crlf_ok texto = true /\
  set_clipboard E_windows (Some texto) w_init =
    (Ok tt,
     {| clock := 0; busy_reads := 0; clip_calls := 4; clip_held := false;
        clip_text := Some written; tbl := tbl w_init;
        trace := [EvClip OpenClipboard; EvClip EmptyClipboard;
                  EvClip (SetClipboardText written); EvClip CloseClipboard] |}) /\
  crlf_ok written = false.
Proof. repeat split. Qed.

(** X19: [set_clipboard] uses the clipboard inside a scoped acquisition.
    When [OpenClipboard] fails nothing else is called and the clipboard is
    left as it was.  Once it has succeeded, [CloseClipboard] is the last
    call on every path, also when emptying or setting the text raises, and
    the clipboard is no longer held when that call succeeds.  The call
    returns normally exactly when the four calls succeed, with the text
    computed from its argument on the clipboard. *)
Theorem set_clipboard_scoped (E : env) (texto : option string) (w : world) :
  let payload := clipboard_payload texto in
  let r := fst (set_clipboard E texto w) in
  let w' := snd (set_clipboard E texto w) in
  let n := clip_calls w in
  (clip_ok E n = false ->
   r = Raise (clipboard_error OpenClipboard) /\
   trace w' = trace w ++ [EvClip OpenClipboard] /\
   clip_text w' = clip_text w /\ clip_held w' = clip_held w) /\
  (clip_ok E n = true ->
   exists evs : list event,
     trace w' = trace w ++ EvClip OpenClipboard :: evs ++ [EvClip CloseClipboard] /\
     (evs = [EvClip EmptyClipboard] \/
      evs = [EvClip EmptyClipboard; EvClip (SetClipboardText payload)]) /\
     (clip_ok E (pred (clip_calls w')) = true -> clip_held w' = false) /\
     (r = Ok tt ->
      clip_text w' = Some payload /\ clip_held w' = false /\
      evs = [EvClip EmptyClipboard; EvClip (SetClipboardText payload)]) /\
     (clip_ok E (S n) = true -> clip_ok E (S (S n)) = true ->
      clip_ok E (S (S (S n))) = true -> r = Ok tt)).
Proof.
  cbv zeta. split.
  - intros Hopen.
    unfold set_clipboard, bind, try_finally, clip_call. rewrite Hopen.
    world_fields. repeat split.
  - intros Hopen.
    unfold set_clipboard, bind, try_finally, clip_call. rewrite Hopen.
    world_fields.
    destruct (clip_ok E (S (clip_calls w))) eqn:Hempty; world_fields.
    + destruct (clip_ok E (S (S (clip_calls w)))) eqn:Hset; world_fields;
        destruct (clip_ok E (S (S (S (clip_calls w))))) eqn:Hclose; world_fields;
        cbn [Init.Nat.pred];
        (exists [EvClip EmptyClipboard;
                 EvClip (SetClipboardText (clipboard_payload texto))]);
        (split; [rewrite <- !app_assoc; reflexivity |]);
        (split; [right; reflexivity |]);
        repeat split; intros; congruence.
    + destruct (clip_ok E (S (S (clip_calls w)))) eqn:Hclose; world_fields;
        cbn [Init.Nat.pred];
        (exists [EvClip EmptyClipboard]);
        (split; [rewrite <- !app_assoc; reflexivity |]);
        (split; [left; reflexivity |]);
        repeat split; intros; congruence.
Qed.

Lemma set_clipboard_scoped_witness :
  clip_ok E_clip_fails (clip_calls w_init) = true /\
  fst (set_clipboard E_clip_fails (Some "a") w_init)
    = Raise (clipboard_error (SetClipboardText "a")) /\
  clip_held (snd (set_clipboard E_clip_fails (Some "a") w_init)) = false.
Proof.
  assert (Hopen : clip_ok E_clip_fails (clip_calls w_init) = true) by reflexivity.
  pose proof (set_clipboard_scoped E_clip_fails (Some "a") w_init) as H.
  cbv zeta in H. destruct H as (_ & H).
  destruct (H Hopen) as (evs & _ & _ & Hheld & _).
  split; [exact Hopen |]. split; [reflexivity |].
  apply Hheld. reflexivity.
Defined.

(** ** Field-push sequencer *)

Lemma always_ok_ret {A} (a : A) : always_ok (ret a) a [].
Proof. intros w. exists w. split; [reflexivity | symmetry; apply app_nil_r]. Qed.

Lemma always_ok_bind {A B} (m : M A) (k : A -> M B) a b e1 e2 :
  always_ok m a e1 -> always_ok (k a) b e2 -> always_ok (bind m k) b (e1 ++ e2).
Proof.
  intros Hm Hk w. destruct (Hm w) as (w1 & Hrun1 & Htr1).
  destruct (Hk w1) as (w2 & Hrun2 & Htr2).
  exists w2. unfold bind. rewrite Hrun1, Hrun2, Htr2, Htr1, app_assoc.
  split; reflexivity.
Qed.

Lemma always_ok_do_emit (e : event) : always_ok (do_emit e) tt [e].
Proof. intros w. exists (emit e w). split; reflexivity. Qed.

Lemma always_ok_when (cond : bool) (body : M unit) evs :
  always_ok body tt evs -> always_ok (when cond body) tt (if cond then evs else []).
Proof. destruct cond; [trivial | intros _; apply always_ok_ret]. Qed.

Lemma always_ok_when_emit (cond : bool) (e : event) :
  always_ok (when cond (do_emit e)) tt (opt_event cond e).
Proof. apply (always_ok_when cond (do_emit e) [e]), always_ok_do_emit. Qed.

Lemma always_ok_ensure_visible_tbl (i visible_rows : Z) :
  always_ok (ensure_visible_tbl i visible_rows)
    (i - scroll_of i visible_rows) [EvScroll (scroll_of i visible_rows)].
Proof.
  intros w. unfold ensure_visible_tbl. rewrite ensure_visible_eq.
  eexists. split; reflexivity.
Qed.

Section Cooperative.

Variable E : env.
Hypothesis HE : cooperative E.

Lemma always_ok_connect c s :
  always_ok (connect_sap_session E c s) tt [EvGetSession c s].
Proof.
  intros w. unfold connect_sap_session.
  destruct HE as (_ & Hs & _). rewrite Hs.
  eexists. split; reflexivity.
Qed.

Lemma always_ok_findById el : always_ok (findById E el) tt [].
Proof.
  intros w. unfold findById. destruct HE as (_ & _ & Hr & _). rewrite Hr.
  exists w. split; [reflexivity | symmetry; apply app_nil_r].
Qed.

Lemma always_ok_ui el a : always_ok (ui E el a) tt [EvUi el a].
Proof.
  unfold ui.
  apply (always_ok_bind (findById E el) (fun _ => do_emit (EvUi el a)) tt tt [] [_]).
  - apply always_ok_findById.
  - apply always_ok_do_emit.
Qed.

Lemma always_ok_wait : always_ok (wait_not_busy E TIMEOUT_DEFAULT) tt [].
Proof.
  intros w. unfold wait_not_busy.
  pose proof (wait_loop_post E (clock w) TIMEOUT_DEFAULT w) as Hpost.
  destruct (wait_loop E (clock w) TIMEOUT_DEFAULT w) as [r w'].
  destruct Hpost as (k & _ & Hc & Hs & Hall & Hres). cbv zeta in *.
  cbn [fst snd] in *.
  exists w'. split.
  - destruct r as [[] | e]; [reflexivity | exfalso].
    destruct Hres as (_ & Hset & Hlt).
    destruct HE as (_ & _ & _ & Hresp & _).
    destruct (Hresp (busy_reads w)) as (k0 & Hclear & Hin).
    destruct (Nat.lt_trichotomy k0 k) as [Hk | [Hk | Hk]].
    + destruct (Hall k0 Hk) as [Hset0 _]. congruence.
    + subst k0. congruence.
    + specialize (Hin k Hk). lia.
  - destruct Hs as (_ & _ & _ & _ & ->). symmetry. apply app_nil_r.
Qed.

Lemma always_ok_set_clipboard texto :
  always_ok (set_clipboard E texto) tt
    [EvClip OpenClipboard; EvClip EmptyClipboard;
     EvClip (SetClipboardText (clipboard_payload texto));
     EvClip CloseClipboard].
Proof.
  intros w. destruct HE as (_ & _ & _ & _ & Hc).
  unfold set_clipboard, bind, try_finally, clip_call.
  rewrite Hc. world_fields. rewrite Hc. world_fields. rewrite Hc.
  world_fields. rewrite Hc. eexists. split; [reflexivity |].
  world_fields. rewrite <- !app_assoc. reflexivity.
Qed.

Variables (os_str : string) (visible_rows : Z) (save_after : bool).
Variables (connection_index session_index : Z).
Variables (progress_cb log_cb : bool).

Ltac step lemma := eapply always_ok_bind; [apply lemma | cbv beta].

Lemma always_ok_push_rows total texts : forall i,
  always_ok (push_rows E visible_rows progress_cb log_cb total i texts) tt
    (rows_events visible_rows progress_cb log_cb total i texts).
Proof.
  induction texts as [|texto rest IH]; intros i.
  - apply always_ok_ret.
  - cbn [push_rows rows_events]. unfold row_events.
    rewrite <- !app_assoc.
    step always_ok_when_emit.
    change ([EvScroll (scroll_of i visible_rows);
             EvUi (BTN_TEXTO_LONGO (i - scroll_of i visible_rows)) Press;
             EvClip OpenClipboard; EvClip EmptyClipboard;
             EvClip (SetClipboardText (clipboard_payload (Some texto)));
             EvClip CloseClipboard; EvUi LONGTEXT_SHELL_ID SetDocum;
             EvUi BTN_BACK_ID Press] ++
            opt_event log_cb (EvLog (log_row i total)) ++
            rows_events visible_rows progress_cb log_cb total (i + 1) rest)
      with ([EvScroll (scroll_of i visible_rows)] ++
            [EvUi (BTN_TEXTO_LONGO (i - scroll_of i visible_rows)) Press] ++
            [] ++
            [EvClip OpenClipboard; EvClip EmptyClipboard;
             EvClip (SetClipboardText (clipboard_payload (Some texto)));
             EvClip CloseClipboard] ++
            [EvUi LONGTEXT_SHELL_ID SetDocum] ++ [] ++
            [EvUi BTN_BACK_ID Press] ++ [] ++
            opt_event log_cb (EvLog (log_row i total)) ++
            rows_events visible_rows progress_cb log_cb total (i + 1) rest).
    step always_ok_ensure_visible_tbl.
    step always_ok_ui. step always_ok_wait.
    step always_ok_set_clipboard.
    step always_ok_ui. step always_ok_wait.
    step always_ok_ui. step always_ok_wait.
    step always_ok_when_emit.
    apply IH.
Qed.

Lemma always_ok_open_iw32 :
  always_ok (open_iw32_and_load_os E os_str) tt
    [ EvUi OKCD_ID (SetText "/nIW32");
      EvUi WND0 (SendVKey 0);
      EvUi OS_FIELD_ID (SetText os_str);
      EvUi OS_FIELD_ID (SetCaretPosition (Z.of_nat (String.length os_str)));
      EvUi WND0 (SendVKey 0) ].
Proof.
  unfold open_iw32_and_load_os.
  change [ EvUi OKCD_ID (SetText "/nIW32");
           EvUi WND0 (SendVKey 0);
           EvUi OS_FIELD_ID (SetText os_str);
           EvUi OS_FIELD_ID (SetCaretPosition (Z.of_nat (String.length os_str)));
           EvUi WND0 (SendVKey 0) ]
    with ([EvUi OKCD_ID (SetText "/nIW32")] ++ [EvUi WND0 (SendVKey 0)] ++ [] ++
          [EvUi OS_FIELD_ID (SetText os_str)] ++
          [EvUi OS_FIELD_ID (SetCaretPosition (Z.of_nat (String.length os_str)))] ++
          [EvUi WND0 (SendVKey 0)] ++ []).
  step always_ok_ui. step always_ok_ui. step always_ok_wait.
  step always_ok_ui. step always_ok_ui. step always_ok_ui.
  apply always_ok_wait.
Qed.

Lemma always_ok_save :
  always_ok
    (when save_after
       (when log_cb (do_emit (EvLog "Salvando a ordem...")) ;;
        ui E BTN_SAVE_ID Press ;;
        wait_not_busy E TIMEOUT_DEFAULT)) tt
    (if save_after
     then opt_event log_cb (EvLog "Salvando a ordem...") ++ [EvUi BTN_SAVE_ID Press]
     else []).
Proof.
  apply always_ok_when.
  step always_ok_when_emit.
  change [EvUi BTN_SAVE_ID Press] with ([EvUi BTN_SAVE_ID Press] ++ []).
  step always_ok_ui. apply always_ok_wait.
Qed.

(** In a cooperative environment a run succeeds from every world and
    adds [run_events] to the trace. *)
Lemma always_ok_push_to_sap long_texts :
  always_ok
    (push_to_sap E os_str visible_rows save_after connection_index
       session_index progress_cb log_cb long_texts) true
    (run_events os_str visible_rows save_after connection_index
       session_index progress_cb log_cb long_texts).
Proof.
  unfold push_to_sap. destruct HE as (Hwin & _). rewrite Hwin. cbn [negb].
  unfold run_events, prologue_events, epilogue_events.
  change ([EvGetSession connection_index session_index; EvUi WND0 Maximize] ++
          opt_event log_cb
            (EvLog ("Abrindo IW32 e carregando OS " ++ os_str ++ "...")%string) ++
          [ EvUi OKCD_ID (SetText "/nIW32");
            EvUi WND0 (SendVKey 0);
            EvUi OS_FIELD_ID (SetText os_str);
            EvUi OS_FIELD_ID (SetCaretPosition (Z.of_nat (String.length os_str)));
            EvUi WND0 (SendVKey 0);
            EvUi TAB_OPERACOES_ID Select ])
    with ([EvGetSession connection_index session_index] ++ [EvUi WND0 Maximize] ++
          opt_event log_cb
            (EvLog ("Abrindo IW32 e carregando OS " ++ os_str ++ "...")%string) ++
          [ EvUi OKCD_ID (SetText "/nIW32");
            EvUi WND0 (SendVKey 0);
            EvUi OS_FIELD_ID (SetText os_str);
            EvUi OS_FIELD_ID (SetCaretPosition (Z.of_nat (String.length os_str)));
            EvUi WND0 (SendVKey 0) ] ++
          [EvUi TAB_OPERACOES_ID Select] ++ [] ++ []).
  rewrite <- !app_assoc.
  step always_ok_connect. step always_ok_ui. step always_ok_when_emit.
  step always_ok_open_iw32. step always_ok_ui. step always_ok_wait.
  step always_ok_findById.
  step always_ok_push_rows.
  step always_ok_save.
  rewrite <- (app_nil_r (opt_event progress_cb (EvProgress 1))).
  step always_ok_when_emit.
  apply always_ok_ret.
Qed.

End Cooperative.

Lemma E_windows_cooperative : cooperative E_windows.
Proof.
  repeat split. intros n. exists 0%nat.
  split; [reflexivity | intros j Hj; lia].
Qed.

Lemma progress_values_app (tr1 tr2 : list event) :
  progress_values (tr1 ++ tr2) = progress_values tr1 ++ progress_values tr2.
Proof. apply flat_map_app. Qed.

Lemma progress_values_rows visible_rows log_cb total texts : forall i,
  progress_values (rows_events visible_rows true log_cb total i texts) =
  map (fun j => progress_fraction (i + Z.of_nat j) total)
      (seq 0 (List.length texts)).
Proof.
  induction texts as [|texto rest IH]; intros i; [reflexivity |].
  cbn [rows_events List.length seq map]. rewrite progress_values_app, IH.
  rewrite <- seq_shift, map_map.
  replace (i + Z.of_nat 0) with i by lia.
  assert (Hrow : progress_values (row_events visible_rows true log_cb total i texto)
                 = [progress_fraction i total])
    by (destruct log_cb; reflexivity).
  rewrite Hrow. cbn [app]. f_equal.
  apply map_ext. intros j. f_equal. lia.
Qed.

(** C2, as stated, fails: in a run over three rows the progress callback
    is invoked four times, not three, and the first invocation (event 9)
    comes before the first row is scrolled into view (event 10) and long
    before its cycle ends with the press of "back" (event 17). *)
Lemma push_to_sap_progress_before_cycle :
  let run :=
    push_to_sap E_windows "6000794541" 15 false 0 0 true true ["a"; "b"; "c"] w_init in
  fst run = Ok true /\
  progress_values (trace (snd run)) = [1 # 3; 2 # 3; 3 # 3; 1]%Q /\
  List.length (progress_values (trace (snd run))) <> 3%nat /\
  find_index is_progress (trace (snd run)) = Some 9%nat /\
  find_index is_scroll (trace (snd run)) = Some 10%nat /\
  find_index is_back_press (trace (snd run)) = Some 17%nat.
Proof. vm_compute. repeat split. discriminate. Qed.

(** C2, amended: when nothing fails, [push_to_sap] invokes the progress
    callback at the start of each row's cycle, right before the row is
    scrolled into view, with value [(i+1)/max(total,1)], and once more with
    1.0 after the optional save; for three rows the values are 1/3, 2/3,
    3/3 and 1.0, in that order. *)
Theorem push_to_sap_progress (E : env) (os_str : string) (visible_rows : Z)
  (save_after : bool) (connection_index session_index : Z) (log_cb : bool)
  (long_texts : list string) (w : world) :
  cooperative E ->
  let total := Z.of_nat (List.length long_texts) in
  let evs := run_events os_str visible_rows save_after connection_index
               session_index true log_cb long_texts in
  (exists w' : world,
     push_to_sap E os_str visible_rows save_after connection_index
       session_index true log_cb long_texts w = (Ok true, w') /\
     trace w' = trace w ++ evs) /\
  (forall i texto, exists rest,
     row_events visible_rows true log_cb total i texto =
     EvProgress (progress_fraction i total)
       :: EvScroll (scroll_of i visible_rows) :: rest /\
     progress_values rest = []) /\
  progress_values evs =
    map (fun i => progress_fraction (Z.of_nat i) total)
        (seq 0 (List.length long_texts)) ++ [1%Q] /\
  (List.length long_texts = 3%nat ->
   progress_values evs = [1 # 3; 2 # 3; 3 # 3; 1]%Q /\
   (33 # 100 < 1 # 3 < 34 # 100)%Q /\ (66 # 100 < 2 # 3 < 67 # 100)%Q /\
   (3 # 3 == 1)%Q).
Proof.
  intros HE. cbv zeta.
  assert (Hvals :
    progress_values
      (run_events os_str visible_rows save_after connection_index
         session_index true log_cb long_texts) =
    map (fun i => progress_fraction (Z.of_nat i) (Z.of_nat (List.length long_texts)))
        (seq 0 (List.length long_texts)) ++ [1%Q]).
  { unfold run_events. rewrite !progress_values_app, progress_values_rows.
    assert (Hpro : progress_values
                     (prologue_events os_str connection_index session_index log_cb) = [])
      by (destruct log_cb; reflexivity).
    assert (Hepi : progress_values (epilogue_events save_after true log_cb) = [1%Q])
      by (destruct save_after, log_cb; reflexivity).
    rewrite Hpro, Hepi. reflexivity. }
  split; [apply always_ok_push_to_sap; assumption |].
  split; [| split; [exact Hvals |]].
  - intros i texto. eexists. split; [reflexivity |].
    destruct log_cb; reflexivity.
  - intros Hlen. rewrite Hvals, Hlen.
    split; [reflexivity |]. repeat split.
Qed.

Lemma push_to_sap_progress_witness :
  cooperative E_windows /\
  exists w' : world,
    push_to_sap E_windows "6000794541" 15 true 0 0 true false ["a"; "b"; "c"] w_init
      = (Ok true, w') /\
    trace w' = trace w_init ++
               run_events "6000794541" 15 true 0 0 true false ["a"; "b"; "c"].
Proof.
  split; [exact E_windows_cooperative |].
  apply (push_to_sap_progress E_windows "6000794541" 15 true 0 0 false
           ["a"; "b"; "c"] w_init E_windows_cooperative).
Defined.

(** C5: when nothing fails, a run over three rows of text with
    [visible_rows = 2] presses the long-text buttons at the (relative row,
    scroll position) pairs (0,0), (1,0), (1,1), in that order. *)
Theorem push_to_sap_three_rows_pairs (E : env) (os_str : string)
  (save_after : bool) (connection_index session_index : Z)
  (progress_cb log_cb : bool) (t0 t1 t2 : string) (w : world) :
  cooperative E ->
  exists (w' : world) (evs : list event),
    push_to_sap E os_str 2 save_after connection_index session_index
      progress_cb log_cb [t0; t1; t2] w = (Ok true, w') /\
    trace w' = trace w ++ evs /\
    forall pos : Z, row_pairs pos evs = [(0, 0); (1, 0); (1, 1)].
Proof.
  intros HE.
  destruct (always_ok_push_to_sap E HE os_str 2 save_after connection_index
              session_index progress_cb log_cb [t0; t1; t2] w) as (w' & Hrun & Htr).
  exists w'. eexists. split; [exact Hrun |]. split; [exact Htr |].
  intros pos. destruct progress_cb, log_cb, save_after; reflexivity.
Qed.

Lemma push_to_sap_three_rows_pairs_witness :
  cooperative E_windows /\
  exists (w' : world) (evs : list event),
    push_to_sap E_windows "6000794541" 2 true 0 0 true true ["a"; "b"; "c"] w_init
      = (Ok true, w') /\
    trace w' = trace w_init ++ evs /\
    forall pos : Z, row_pairs pos evs = [(0, 0); (1, 0); (1, 1)].
Proof.
  split; [exact E_windows_cooperative |].
  apply (push_to_sap_three_rows_pairs E_windows "6000794541" true 0 0 true true
           "a" "b" "c" w_init E_windows_cooperative).
Defined.

(** C8: outside Windows, [push_to_sap] raises the platform error at once
    and leaves the world as it found it: no session is requested, no UI
    command is issued, the clipboard is not touched, nothing is logged. *)
Theorem push_to_sap_unsupported_platform (E : env) (os_str : string)
  (visible_rows : Z) (save_after : bool) (connection_index session_index : Z)
  (progress_cb log_cb : bool) (long_texts : list string) (w : world) :
  is_windows E = false ->
  push_to_sap E os_str visible_rows save_after connection_index session_index
    progress_cb log_cb long_texts w = (Raise (RuntimeError platform_msg), w).
Proof.
  intros Hwin. unfold push_to_sap. rewrite Hwin. reflexivity.
Qed.

Lemma push_to_sap_unsupported_platform_witness :
  is_windows E_linux = false /\
  push_to_sap E_linux "6000794541" 15 true 0 0 true true ["a"; "b"] w_init
    = (Raise (RuntimeError platform_msg), w_init).
Proof.
  split; [reflexivity |].
  apply push_to_sap_unsupported_platform. reflexivity.
Defined.



(* ===================================================================== *)
(** * Further properties of the code *)
(* ===================================================================== *)

(** ** Further properties of the row-visibility calculator *)

(** X1: going from row [i] to row [i + 1] moves the scroll position by one
    line exactly when row [i + 1] lies beyond the first [visible_rows] rows,
    and leaves it where it is otherwise. *)
Theorem ensure_visible_step (t1 t2 : GuiTableControl) (visible_rows i : Z) :
  VerticalScrollbar_Position (fst (ensure_visible t2 (i + 1) visible_rows)) =
  VerticalScrollbar_Position (fst (ensure_visible t1 i visible_rows)) +
  (if i + 1 <? visible_rows then 0 else 1).
Proof.
  rewrite !ensure_visible_eq. cbn [fst VerticalScrollbar_Position].
  destruct (scroll_of_cases i visible_rows) as [[? ->] | [? ->]];
    destruct (scroll_of_cases (i + 1) visible_rows) as [[? ->] | [? ->]];
    destruct (Z.ltb_spec (i + 1) visible_rows); lia.
Qed.

(** ** Further properties of the identifier coercion *)

Lemma string_length_app (s1 s2 : string) :
  String.length (s1 ++ s2) = (String.length s1 + String.length s2)%nat.
Proof. induction s1 as [|c s1 IH]; cbn; [reflexivity | now rewrite IH]. Qed.

Lemma substring_split (s : string) : forall n : nat,
  (n <= String.length s)%nat ->
  s = (substring 0 n s ++ substring n (String.length s - n) s)%string.
Proof.
  induction s as [|c s IH]; intros [|n] Hn; cbn in *; try reflexivity; try lia.
  - f_equal. clear. induction s as [|d s IH]; cbn; [reflexivity | now f_equal].
  - f_equal. apply IH. lia.
Qed.

Lemma substring_app_l (s1 s2 : string) :
  substring 0 (String.length s1) (s1 ++ s2) = s1.
Proof.
  induction s1 as [|c s1 IH]; cbn.
  - destruct s2; reflexivity.
  - now rewrite IH.
Qed.

Lemma substring_app_r (s1 s2 : string) :
  substring (String.length s1) (String.length s2) (s1 ++ s2) = s2.
Proof.
  induction s1 as [|c s1 IH]; cbn; [| exact IH].
  induction s2 as [|d s2 IH]; cbn; [reflexivity | now f_equal].
Qed.

Lemma endswith_split (s p : string) :
  Py.endswith s p = true ->
  s = (Py.drop_last (String.length p) s ++ p)%string.
Proof.
  unfold Py.endswith, Py.drop_last. intros H.
  apply andb_true_iff in H as [Hle Heq].
  apply Nat.leb_le in Hle. apply String.eqb_eq in Heq.
  rewrite (substring_split s (String.length s - String.length p)) at 1 by lia.
  replace (String.length s - (String.length s - String.length p))%nat
    with (String.length p) by lia.
  now rewrite Heq.
Qed.

Lemma endswith_app (s p : string) : Py.endswith (s ++ p) p = true.
Proof.
  unfold Py.endswith. rewrite string_length_app.
  replace (String.length s + String.length p - String.length p)%nat
    with (String.length s) by lia.
  rewrite substring_app_r, String.eqb_refl.
  apply andb_true_iff. split; [apply Nat.leb_le; lia | reflexivity].
Qed.

Lemma drop_last_app (s p : string) :
  Py.drop_last (String.length p) (s ++ p) = s.
Proof.
  unfold Py.drop_last. rewrite string_length_app.
  replace (String.length s + String.length p - String.length p)%nat
    with (String.length s) by lia.
  apply substring_app_l.
Qed.

Lemma conv_str_empty_iff (s : string) :
  _conv_str s = "" <-> Py.strip s = "" \/ Py.strip s = ".0".
Proof.
  unfold _conv_str. cbv zeta.
  destruct (Py.endswith (Py.strip s) ".0") eqn:He.
  - pose proof (endswith_split _ _ He) as Hs. cbn [String.length] in Hs.
    split.
    + intros H0. right. rewrite Hs, H0. reflexivity.
    + intros [H0 | H0]; rewrite H0 in *; [discriminate He | reflexivity].
  - split; [auto |]. intros [H0 | H0]; [exact H0 |].
    rewrite H0 in He. discriminate He.
Qed.

Lemma str_int_nonempty (z : Z) : Py.str_int z <> "".
Proof.
  unfold Py.str_int.
  destruct z as [|p|p]; cbn [Z.to_int NilZero.string_of_int]; try discriminate.
  destruct (Pos.to_uint p); discriminate.
Qed.

(** X2: the coerced identifier is empty, and the row is left out of the
    workable set, exactly when the cell is missing (None or NaN) or holds
    text that, once stripped, is empty or is [".0"]; no number gives an
    empty identifier. *)
Theorem conv_empty_iff (x : cell) :
  _conv x = "" <->
  (isna x = true \/
   exists s, (x = PyStr s \/ x = PyObj s) /\
             (Py.strip s = "" \/ Py.strip s = ".0")).
Proof.
  destruct x as [|z|f|s|s].
  - split; [left |]; reflexivity.
  - split.
    + intros H. exfalso. exact (str_int_nonempty z H).
    + intros [H | (s & [H | H] & _)]; discriminate.
  - split.
    + destruct f as [b|b| |b m e]; intros H.
      * discriminate.
      * destruct b; discriminate.
      * left; reflexivity.
      * exfalso. exact (str_int_nonempty _ H).
    + intros [H | (s & [H | H] & _)]; try discriminate.
      destruct f; try discriminate. reflexivity.
  - change (_conv (PyStr s)) with (_conv_str s). rewrite conv_str_empty_iff.
    split.
    + intros H. right. exists s. auto.
    + intros [H | (s' & [H | H] & Hs)]; try discriminate.
      inversion H; subst. exact Hs.
  - change (_conv (PyObj s)) with (_conv_str s). rewrite conv_str_empty_iff.
    split.
    + intros H. right. exists s. auto.
    + intros [H | (s' & [H | H] & Hs)]; try discriminate.
      inversion H; subst. exact Hs.
Qed.

Lemma to_int_proper (z : Z) :
  Z.to_int z <> Decimal.Pos Decimal.Nil /\ Z.to_int z <> Decimal.Neg Decimal.Nil.
Proof.
  destruct z as [|p|p]; cbn [Z.to_int]; split; try discriminate;
    intros H; injection H as H; exact (Unsigned.to_uint_nonnil p H).
Qed.

(** X3: the identifier of an integer cell can be read back: parsing it as
    a decimal gives the integer again, so two integer cells get the same
    identifier only when they hold the same number. *)
Theorem conv_int_round_trip (a b : Z) :
  option_map Z.of_int (NilZero.int_of_string (_conv (PyInt a))) = Some a /\
  (_conv (PyInt a) = _conv (PyInt b) -> a = b).
Proof.
  assert (Hparse : forall z,
    option_map Z.of_int (NilZero.int_of_string (_conv (PyInt z))) = Some z).
  { intros z. change (_conv (PyInt z)) with (NilZero.string_of_int (Z.to_int z)).
    destruct (to_int_proper z) as [H1 H2].
    rewrite (NilZero.isi _ H1 H2). cbn [option_map]. now rewrite DecimalZ.of_to. }
  split; [apply Hparse |].
  intros Heq. pose proof (Hparse a) as Ha. rewrite Heq, Hparse in Ha.
  now injection Ha.
Qed.

Lemma all_chars_app (p : ascii -> bool) (s1 s2 : string) :
  all_chars p (s1 ++ s2) = all_chars p s1 && all_chars p s2.
Proof.
  induction s1 as [|c s1 IH]; cbn; [reflexivity |].
  now rewrite IH, andb_assoc.
Qed.

Lemma all_chars_impl (p q : ascii -> bool) (s : string) :
  (forall c, p c = true -> q c = true) ->
  all_chars p s = true -> all_chars q s = true.
Proof.
  intros Hpq. induction s as [|c s IH]; cbn; [reflexivity |].
  intros H. apply andb_true_iff in H as [Hc Hs].
  apply andb_true_iff. auto.
Qed.

Lemma string_of_uint_digits (d : Decimal.uint) :
  all_chars is_int_char (NilEmpty.string_of_uint d) = true.
Proof. induction d; cbn; auto. Qed.

Lemma str_int_chars (z : Z) : all_chars is_int_char (Py.str_int z) = true.
Proof.
  unfold Py.str_int.
  destruct z as [|p|p]; cbn [Z.to_int NilZero.string_of_int]; try reflexivity;
    unfold NilZero.string_of_uint;
    destruct (Pos.to_uint p) eqn:Hp; try reflexivity;
    try (rewrite <- Hp; apply string_of_uint_digits);
    cbn [all_chars]; rewrite <- Hp; rewrite string_of_uint_digits; reflexivity.
Qed.

Lemma int_char_not_space (c : ascii) :
  is_int_char c = true -> negb (Py.isspace c) = true.
Proof. destruct c as [[] [] [] [] [] [] [] []]; vm_compute; congruence. Qed.

Lemma int_char_not_dot (c : ascii) :
  is_int_char c = true -> negb (Ascii.eqb c ".") = true.
Proof. destruct c as [[] [] [] [] [] [] [] []]; vm_compute; congruence. Qed.

Lemma rstrip_no_space (s : string) :
  all_chars (fun c => negb (Py.isspace c)) s = true -> Py.rstrip s = s.
Proof.
  induction s as [|c s IH]; cbn; [reflexivity |].
  intros H. apply andb_true_iff in H as [Hc Hs]. rewrite (IH Hs).
  apply negb_true_iff in Hc. rewrite Hc. destruct s; reflexivity.
Qed.

Lemma strip_no_space (s : string) :
  all_chars (fun c => negb (Py.isspace c)) s = true -> Py.strip s = s.
Proof.
  intros H. unfold Py.strip.
  assert (Hl : Py.lstrip s = s).
  { destruct s as [|c s]; [reflexivity |]. cbn in *.
    apply andb_true_iff in H as [Hc _]. apply negb_true_iff in Hc.
    now rewrite Hc. }
  rewrite Hl. now apply rstrip_no_space.
Qed.

Lemma str_int_no_dot_zero (z : Z) : Py.endswith (Py.str_int z) ".0" = false.
Proof.
  destruct (Py.endswith (Py.str_int z) ".0") eqn:He; [exfalso | reflexivity].
  pose proof (endswith_split _ _ He) as Hs.
  pose proof (all_chars_impl _ _ _ int_char_not_dot (str_int_chars z)) as Hd.
  rewrite Hs, all_chars_app in Hd.
  apply andb_true_iff in Hd as [_ Hd]. discriminate Hd.
Qed.

(** [int] of a finite float whose value is an integer gives that integer:
    the value of [(s, m, e)] is the integer [n], with the sign [s], when
    [n = m * 2^e] for [e >= 0] and when [m = n * 2^(-e)] for [e < 0]. *)
Lemma int_of_integral_float (s : bool) (m : positive) (e n : Z) :
  (0 <= e /\ n = Z.pos m * 2 ^ e) \/ (e < 0 /\ Z.pos m = n * 2 ^ (- e)) ->
  Py.int_of_finite s m e = if s then - n else n.
Proof.
  intros H. unfold Py.int_of_finite.
  assert (Hn : Z.shiftl (Z.pos m) e = n).
  { destruct H as [[He ->] | [He Hm]].
    - apply Z.shiftl_mul_pow2. exact He.
    - replace e with (- (- e)) at 1 by lia.
      rewrite Z.shiftl_opp_r, Z.shiftr_div_pow2 by lia.
      assert (Hp : 0 < 2 ^ (- e)) by (apply Z.pow_pos_nonneg; lia).
      rewrite Hm. apply Z.div_mul. lia. }
  rewrite Hn. reflexivity.
Qed.

(** X4: an order number comes out as the same identifier however the sheet
    spells it: as the integer [n], as the text of [n], as that text followed
    by [".0"], or as any finite float whose value is the integer [n], zero
    included, whatever its mantissa and exponent. *)
Theorem conv_spellings_agree (z : Z) (s : bool) (m : positive) (e n : Z) :
  _conv (PyStr (Py.str_int z)) = _conv (PyInt z) /\
  _conv (PyStr (Py.str_int z ++ ".0")) = _conv (PyInt z) /\
  _conv (PyFloat (S754_zero s)) = _conv (PyInt 0) /\
  ((0 <= e /\ n = Z.pos m * 2 ^ e) \/ (e < 0 /\ Z.pos m = n * 2 ^ (- e)) ->
   _conv (PyFloat (S754_finite s m e)) = _conv (PyInt (if s then - n else n))).
Proof.
  pose proof (all_chars_impl _ _ _ int_char_not_space (str_int_chars z)) as Hsp.
  split; [| split; [| split]].
  - change (_conv_str (Py.str_int z) = Py.str_int z). unfold _conv_str.
    rewrite (strip_no_space _ Hsp), str_int_no_dot_zero. reflexivity.
  - change (_conv_str (Py.str_int z ++ ".0") = Py.str_int z). unfold _conv_str.
    rewrite strip_no_space
      by (rewrite all_chars_app, Hsp; reflexivity).
    rewrite endswith_app.
    exact (drop_last_app (Py.str_int z) ".0").
  - reflexivity.
  - intros Hval.
    change (Py.str_int (Py.int_of_finite s m e) =
            Py.str_int (if s then - n else n)).
    now rewrite (int_of_integral_float s m e n Hval).
Qed.

Lemma conv_spellings_agree_witness :
  valid_binary 53 1024 (S754_finite false 4503599627370496 1) = true /\
  _conv (PyFloat (S754_finite false 4503599627370496 1)) = "9007199254740992" /\
  _conv (PyFloat f_6000794541_0) = _conv (PyInt 6000794541).
Proof.
  split; [reflexivity |]. split.
  - destruct (conv_spellings_agree 0 false 4503599627370496 1 9007199254740992)
      as (_ & _ & _ & H).
    apply H. left. split; [lia | reflexivity].
  - destruct (conv_spellings_agree 0 false 6292289136623616 (-20) 6000794541)
      as (_ & _ & _ & H).
    apply H. right. split; [lia | reflexivity].
Defined.

(** ** Row selection *)

Lemma with_OS_str_map (row : Type) (os_cell : row -> cell) (df : list row) :
  with_OS_str os_cell df = map (fun r => (r, _conv (os_cell r))) df.
Proof.
  unfold with_OS_str, coerce_os_to_str.
  induction df as [|r df IH]; cbn; [reflexivity | now rewrite IH].
Qed.

Lemma filter_map_pair (row : Type) (f : row -> string) (p : string -> bool)
  (df : list row) :
  filter (fun r => p (snd r)) (map (fun r => (r, f r)) df) =
  map (fun r => (r, f r)) (filter (fun r => p (f r)) df).
Proof.
  induction df as [|r df IH]; cbn; [reflexivity |].
  destruct (p (f r)); cbn; now rewrite IH.
Qed.

Lemma work_map_filter (row : Type) (os_cell : row -> cell) (df : list row) :
  work os_cell df =
    map (fun r => (r, _conv (os_cell r)))
        (filter (fun r => negb (String.eqb (_conv (os_cell r)) "")) df).
Proof.
  unfold work. rewrite with_OS_str_map.
  apply (filter_map_pair row (fun r => _conv (os_cell r))
           (fun s => negb (String.eqb s ""))).
Qed.

(** X5: the workable set is the sheet in its own order, without the rows
    whose coerced identifier is empty, each row paired with its
    identifier; nothing is reordered or duplicated, and the set is empty
    exactly when every row has an empty identifier. *)
Theorem work_keeps_order (row : Type) (os_cell : row -> cell) (df : list row) :
  work os_cell df =
    map (fun r => (r, _conv (os_cell r)))
        (filter (fun r => negb (String.eqb (_conv (os_cell r)) "")) df) /\
  (List.length (work os_cell df) <= List.length df)%nat /\
  (work os_cell df = [] <-> forall r, In r df -> _conv (os_cell r) = "").
Proof.
  pose proof (work_map_filter row os_cell df) as Hw.
  split; [exact Hw |]. rewrite Hw, length_map. split.
  - apply filter_length_le.
  - split.
    + intros Hnil r Hr.
      destruct (String.eqb_spec (_conv (os_cell r)) "") as [He | Hne]; [exact He |].
      exfalso.
      assert (Hin : In r (filter (fun r => negb (String.eqb (_conv (os_cell r)) "")) df)).
      { apply filter_In. split; [exact Hr |].
        destruct (String.eqb_spec (_conv (os_cell r)) ""); [contradiction | reflexivity]. }
      apply map_eq_nil in Hnil. rewrite Hnil in Hin. exact Hin.
    + intros Hall.
      assert (Hf : filter (fun r => negb (String.eqb (_conv (os_cell r)) "")) df = []).
      { clear Hw. induction df as [|r df IH]; [reflexivity |]. cbn.
        rewrite (Hall r (or_introl eq_refl)). cbn. apply IH.
        intros r' Hr'. apply Hall. right. exact Hr'. }
      rewrite Hf. reflexivity.
Qed.

Lemma mem_In (x : string) (l : list string) : mem x l = true <-> In x l.
Proof.
  unfold mem. rewrite existsb_exists. split.
  - intros (y & Hy & He). apply String.eqb_eq in He. now subst.
  - intros H. exists x. split; [exact H | apply String.eqb_refl].
Qed.

Lemma unique_from_spec (l : list string) : forall seen,
  NoDup (unique_from seen l) /\
  forall x, In x (unique_from seen l) <-> In x l /\ ~ In x seen.
Proof.
  induction l as [|a l IH]; intros seen; cbn [unique_from].
  - split; [constructor |]. cbn. tauto.
  - destruct (mem a seen) eqn:Hm.
    + apply mem_In in Hm. destruct (IH seen) as [Hnd Hin].
      split; [exact Hnd |]. intros x. rewrite Hin. cbn.
      split; [tauto |]. intros [[-> | Hx] Hns]; [contradiction | tauto].
    + assert (Hna : ~ In a seen).
      { intros H. apply mem_In in H. congruence. }
      destruct (IH (a :: seen)) as [Hnd Hin]. split.
      * constructor; [| exact Hnd]. rewrite Hin. cbn. tauto.
      * intros x. cbn. rewrite Hin. cbn.
        destruct (string_dec a x) as [-> | Hax]; [tauto |]. tauto.
Qed.

Lemma in_work (row : Type) (os_cell : row -> cell) (df : list row) r s :
  In (r, s) (work os_cell df) <-> In r df /\ s = _conv (os_cell r) /\ s <> "".
Proof.
  unfold work. rewrite filter_In, in_with_OS_str. cbn [snd].
  destruct (String.eqb_spec s ""); cbn; intuition congruence.
Qed.

Lemma in_os_list (row : Type) (os_cell : row -> cell) (df : list row) s :
  In s (os_list os_cell df) <->
  s <> "" /\ exists r, In r df /\ _conv (os_cell r) = s.
Proof.
  unfold os_list, unique.
  destruct (unique_from_spec (map snd (work os_cell df)) []) as [_ Hin].
  rewrite Hin, in_map_iff. split.
  - intros [([r s'] & Hs & Hp) _]. cbn in Hs. subst s'.
    apply in_work in Hp as (Hr & -> & Hne). split; [exact Hne | eauto].
  - intros (Hne & r & Hr & <-). split; [| intros []].
    exists (r, _conv (os_cell r)). split; [reflexivity |].
    apply in_work. auto.
Qed.

(** X6: the list of orders offered for selection has no duplicate and no
    empty entry, and holds exactly the identifiers of the rows of the
    sheet. *)
Theorem os_list_spec (row : Type) (os_cell : row -> cell) (df : list row) :
  NoDup (os_list os_cell df) /\
  forall s : string,
    In s (os_list os_cell df) <->
    s <> "" /\ exists r, In r df /\ _conv (os_cell r) = s.
Proof.
  split; [| intros s; apply in_os_list].
  unfold os_list, unique.
  apply (unique_from_spec (map snd (work os_cell df)) []).
Qed.

(** X7: for an order taken from the list, the selected rows are not empty;
    they are the rows of the sheet with that identifier, in the order of
    the sheet. *)
Theorem rows_os_spec (row : Type) (os_cell : row -> cell) (df : list row)
  (selected_os : string) :
  In selected_os (os_list os_cell df) ->
  rows_os os_cell df selected_os <> [] /\
  rows_os os_cell df selected_os =
    map (fun r => (r, selected_os))
        (filter (fun r => String.eqb (_conv (os_cell r)) selected_os) df).
Proof.
  intros Hsel. apply in_os_list in Hsel as (Hne & r0 & Hr0 & Hc0).
  assert (Heq : rows_os os_cell df selected_os =
    map (fun r => (r, selected_os))
        (filter (fun r => String.eqb (_conv (os_cell r)) selected_os) df)).
  { unfold rows_os. rewrite (work_map_filter row os_cell df).
    rewrite (filter_map_pair row (fun r => _conv (os_cell r))
               (fun s => String.eqb s selected_os)).
    clear r0 Hr0 Hc0. induction df as [|r df IH]; [reflexivity |]. cbn.
    destruct (String.eqb_spec (_conv (os_cell r)) "") as [He | Hn]; cbn.
    - destruct (String.eqb_spec (_conv (os_cell r)) selected_os) as [Hs | Hs];
        [congruence | exact IH].
    - destruct (String.eqb_spec (_conv (os_cell r)) selected_os) as [Hs | Hs];
        cbn; [rewrite Hs at 1; f_equal; exact IH | exact IH]. }
  split; [| exact Heq].
  rewrite Heq. intros Hnil. apply map_eq_nil in Hnil.
  assert (Hin : In r0 (filter (fun r => String.eqb (_conv (os_cell r)) selected_os) df)).
  { apply filter_In. split; [exact Hr0 |]. rewrite Hc0. apply String.eqb_refl. }
  rewrite Hnil in Hin. exact Hin.
Qed.

Lemma rows_os_spec_witness :
  In "5" (os_list (fun c : cell => c) [PyInt 5; PyNone; PyStr "5.0"; PyInt 7]) /\
  rows_os (fun c : cell => c) [PyInt 5; PyNone; PyStr "5.0"; PyInt 7] "5" <> [].
Proof.
  assert (Hin : In "5" (os_list (fun c : cell => c)
                          [PyInt 5; PyNone; PyStr "5.0"; PyInt 7]))
    by (left; reflexivity).
  split; [exact Hin |].
  exact (proj1 (rows_os_spec cell (fun c => c) _ "5" Hin)).
Defined.

(** ** Column names *)

Lemma rstrip_idem (s : string) : Py.rstrip (Py.rstrip s) = Py.rstrip s.
Proof.
  induction s as [|c s IH]; [reflexivity |]. cbn [Py.rstrip].
  destruct (Py.rstrip s) as [|d r] eqn:Hr.
  - destruct (Py.isspace c) eqn:Hc; [reflexivity |].
    cbn [Py.rstrip]. now rewrite Hc.
  - cbn [Py.rstrip]. cbn [Py.rstrip] in IH.
    destruct (Py.rstrip r) as [|d' r'] eqn:Hr'.
    + destruct (Py.isspace d); [discriminate IH | now rewrite IH].
    + now rewrite IH.
Qed.

Lemma rstrip_head (c : ascii) (s : string) :
  Py.isspace c = false -> exists r, Py.rstrip (String c s) = String c r.
Proof.
  intros Hc. cbn [Py.rstrip]. destruct (Py.rstrip s) as [|d r].
  - rewrite Hc. eauto.
  - eauto.
Qed.

Lemma lstrip_head (s : string) :
  Py.lstrip s = "" \/
  exists c t, Py.lstrip s = String c t /\ Py.isspace c = false.
Proof.
  induction s as [|c s IH]; [left; reflexivity |]. cbn [Py.lstrip].
  destruct (Py.isspace c) eqn:Hc; [exact IH | right; eauto].
Qed.

Lemma strip_idem (s : string) : Py.strip (Py.strip s) = Py.strip s.
Proof.
  unfold Py.strip.
  destruct (lstrip_head s) as [-> | (c & t & -> & Hc)]; [reflexivity |].
  destruct (rstrip_head c t Hc) as (r & Hr).
  rewrite Hr. cbn [Py.lstrip]. rewrite Hc, <- Hr. apply rstrip_idem.
Qed.

(** X8: [_normalize_cols] keeps the number and the order of the columns,
    leaves the labels that are not strings alone, and is idempotent: a
    second pass changes nothing, because a stripped name has nothing left
    to strip. *)
Theorem normalize_cols_idempotent (cols : list label) :
  _normalize_cols (_normalize_cols cols) = _normalize_cols cols /\
  List.length (_normalize_cols cols) = List.length cols /\
  (forall s, In (ColStr s) (_normalize_cols cols) -> Py.strip s = s) /\
  (forall o, In (ColObj o) (_normalize_cols cols) <-> In (ColObj o) cols).
Proof.
  unfold _normalize_cols. split; [| split; [| split]].
  - rewrite map_map. apply map_ext. intros [s | o]; [| reflexivity].
    now rewrite strip_idem.
  - apply length_map.
  - intros s Hs. apply in_map_iff in Hs as ([s' | o] & Heq & _);
      [| discriminate Heq].
    injection Heq as <-. apply strip_idem.
  - intros o. rewrite in_map_iff. split.
    + intros ([s' | o'] & Heq & Hin); [discriminate Heq |].
      now rewrite <- Heq.
    + intros Hin. exists (ColObj o). auto.
Qed.

Lemma dict_get_app (d1 d2 : list (string * string)) (k : string) :
  dict_get (d1 ++ d2) k =
  match dict_get d2 k with
  | Some v => Some v
  | None => dict_get d1 k
  end.
Proof.
  induction d1 as [|[k' v] d1 IH]; cbn [app dict_get].
  - destruct (dict_get d2 k); reflexivity.
  - rewrite IH. destruct (dict_get d2 k); reflexivity.
Qed.

Lemma dict_get_entries (c s : string) :
  dict_get
    ((if String.eqb (Latin1.lower (Py.strip c)) STATUS_KEY
      then [(c, STATUS_NAME)] else []) ++
     (if String.eqb (Latin1.lower (Py.strip c)) MASCARA_KEY
         || String.eqb (Latin1.lower (Py.strip c)) MASCARA_PLAIN_KEY
      then [(c, MASCARA_NAME)] else [])) s =
  if String.eqb c s then
    if String.eqb (Latin1.lower (Py.strip s)) MASCARA_KEY
       || String.eqb (Latin1.lower (Py.strip s)) MASCARA_PLAIN_KEY
    then Some MASCARA_NAME
    else if String.eqb (Latin1.lower (Py.strip s)) STATUS_KEY
         then Some STATUS_NAME else None
  else None.
Proof.
  rewrite dict_get_app.
  destruct (String.eqb_spec c s) as [-> | Hne].
  - destruct (String.eqb (Latin1.lower (Py.strip s)) MASCARA_KEY
              || String.eqb (Latin1.lower (Py.strip s)) MASCARA_PLAIN_KEY);
      cbn [dict_get]; rewrite ?String.eqb_refl; [reflexivity |].
    destruct (String.eqb (Latin1.lower (Py.strip s)) STATUS_KEY);
      cbn [dict_get]; rewrite ?String.eqb_refl; reflexivity.
  - apply String.eqb_neq in Hne.
    destruct (String.eqb (Latin1.lower (Py.strip c)) MASCARA_KEY
              || String.eqb (Latin1.lower (Py.strip c)) MASCARA_PLAIN_KEY);
      destruct (String.eqb (Latin1.lower (Py.strip c)) STATUS_KEY);
      cbn [dict_get]; rewrite ?Hne; reflexivity.
Qed.

(** The entry of [rename_map] for the name [s], when a column has it. *)
Lemma dict_get_rename_map (cols : list label) (s : string) :
  dict_get (rename_map cols) s =
  if existsb (fun c => match c with
                       | ColStr s' => String.eqb s' s
                       | ColObj _ => false
                       end) cols
  then
    if String.eqb (Latin1.lower (Py.strip s)) MASCARA_KEY
       || String.eqb (Latin1.lower (Py.strip s)) MASCARA_PLAIN_KEY
    then Some MASCARA_NAME
    else if String.eqb (Latin1.lower (Py.strip s)) STATUS_KEY
         then Some STATUS_NAME else None
  else None.
Proof.
  induction cols as [|[c | o] cols IH]; cbn [rename_map existsb];
    [reflexivity | | exact IH].
  cbv zeta. rewrite app_assoc, dict_get_app, IH, dict_get_entries. clear IH.
  destruct (existsb _ cols); destruct (String.eqb c s); cbn [orb];
    try reflexivity;
    destruct (String.eqb (Latin1.lower (Py.strip s)) MASCARA_KEY
              || String.eqb (Latin1.lower (Py.strip s)) MASCARA_PLAIN_KEY);
    try reflexivity;
    destruct (String.eqb (Latin1.lower (Py.strip s)) STATUS_KEY); reflexivity.
Qed.

Lemma load_dataframe_columns_map (cols : list label) :
  load_dataframe_columns cols = map canonical_col cols.
Proof.
  unfold load_dataframe_columns. cbv zeta.
  assert (Hren : rename_columns (rename_map (_normalize_cols cols))
                   (_normalize_cols cols) = map canonical_col cols).
  { unfold rename_columns. unfold _normalize_cols at 2. rewrite map_map.
    apply map_ext_in. intros [s | o] Hin; [| reflexivity].
    rewrite dict_get_rename_map.
    assert (Hex : existsb (fun c => match c with
                                    | ColStr s' => String.eqb s' (Py.strip s)
                                    | ColObj _ => false
                                    end) (_normalize_cols cols) = true).
    { apply existsb_exists. exists (ColStr (Py.strip s)). split.
      - unfold _normalize_cols. apply in_map_iff. exists (ColStr s). auto.
      - apply String.eqb_refl. }
    rewrite Hex. unfold canonical_col. cbv zeta.
    destruct (String.eqb (Latin1.lower (Py.strip (Py.strip s))) MASCARA_KEY
              || String.eqb (Latin1.lower (Py.strip (Py.strip s))) MASCARA_PLAIN_KEY);
      [reflexivity |].
    destruct (String.eqb (Latin1.lower (Py.strip (Py.strip s))) STATUS_KEY);
      reflexivity. }
  destruct (rename_map (_normalize_cols cols)) eqn:Hd; [| exact Hren].
  rewrite <- Hren. unfold rename_columns. symmetry.
  rewrite <- (map_id (_normalize_cols cols)) at 2.
  apply map_ext. intros [s | o]; reflexivity.
Qed.

Lemma canonical_col_cases (s : string) :
  (canonical_col (ColStr s) = ColStr MASCARA_NAME) \/
  (canonical_col (ColStr s) = ColStr STATUS_NAME) \/
  (canonical_col (ColStr s) = ColStr (Py.strip s) /\
   String.eqb (Latin1.lower (Py.strip (Py.strip s))) MASCARA_KEY
   || String.eqb (Latin1.lower (Py.strip (Py.strip s))) MASCARA_PLAIN_KEY = false /\
   String.eqb (Latin1.lower (Py.strip (Py.strip s))) STATUS_KEY = false).
Proof.
  unfold canonical_col. cbv zeta.
  destruct (String.eqb (Latin1.lower (Py.strip (Py.strip s))) MASCARA_KEY
            || String.eqb (Latin1.lower (Py.strip (Py.strip s))) MASCARA_PLAIN_KEY);
    [left; reflexivity |].
  destruct (String.eqb (Latin1.lower (Py.strip (Py.strip s))) STATUS_KEY);
    [right; left; reflexivity | right; right; auto].
Qed.

Lemma canonical_col_idem (c : label) :
  canonical_col (canonical_col c) = canonical_col c.
Proof.
  destruct c as [s | o]; [| reflexivity].
  destruct (canonical_col_cases s) as [-> | [-> | (-> & Hm & Hs)]];
    [reflexivity | reflexivity |].
  unfold canonical_col. cbv zeta. rewrite !strip_idem in *.
  rewrite Hm, Hs. reflexivity.
Qed.

(** X9: the columns returned by [load_dataframe] are the columns read,
    each stripped and, when its lower-case form is "status", "máscara" or
    "mascara", replaced by the canonical name "Status" or "Máscara"; so in
    the result a column whose lower-case form is one of these words has
    exactly the canonical name, the number of columns is kept, and loading
    the result again would change nothing. *)
Theorem load_dataframe_columns_spec (cols : list label) :
  load_dataframe_columns cols = map canonical_col cols /\
  List.length (load_dataframe_columns cols) = List.length cols /\
  (forall s, In (ColStr s) (load_dataframe_columns cols) ->
     let k := Latin1.lower (Py.strip s) in
     (k = STATUS_KEY -> s = STATUS_NAME) /\
     (k = MASCARA_KEY \/ k = MASCARA_PLAIN_KEY -> s = MASCARA_NAME)) /\
  load_dataframe_columns (load_dataframe_columns cols) =
    load_dataframe_columns cols.
Proof.
  rewrite !load_dataframe_columns_map. split; [reflexivity |].
  split; [apply length_map |]. split.
  - intros s Hs. cbv zeta. apply in_map_iff in Hs as (c & Heq & _).
    destruct c as [s0 | o]; [| discriminate Heq].
    unfold canonical_col in Heq.
    destruct (String.eqb (Latin1.lower (Py.strip (Py.strip s0))) MASCARA_KEY
              || String.eqb (Latin1.lower (Py.strip (Py.strip s0))) MASCARA_PLAIN_KEY)
      eqn:Hm.
    { injection Heq as <-. split; [discriminate | reflexivity]. }
    destruct (String.eqb (Latin1.lower (Py.strip (Py.strip s0))) STATUS_KEY) eqn:Hst.
    { injection Heq as <-. split; [reflexivity |]. intros [H | H]; discriminate H. }
    injection Heq as <-. apply orb_false_iff in Hm as [Hm1 Hm2].
    split.
    + intros H. rewrite H in Hst. discriminate Hst.
    + intros [H | H]; rewrite H in *; discriminate.
  - rewrite map_map. apply map_ext. intros c. apply canonical_col_idem.
Qed.

Lemma autodetect_from_spec (preview : list (list string)) : forall start : nat,
  match autodetect_from start preview with
  | Some idx =>
      (start <= idx < start + List.length preview)%nat /\
      header_like (nth (idx - start) preview []) = true /\
      forall j, (j < idx - start)%nat -> header_like (nth j preview []) = false
  | None => forall row, In row preview -> header_like row = false
  end.
Proof.
  induction preview as [|row rest IH]; intros start; cbn [autodetect_from].
  - intros row [].
  - destruct (header_like row) eqn:Hrow.
    + rewrite Nat.sub_diag. cbn [nth List.length]. repeat split; try lia.
      exact Hrow.
    + specialize (IH (S start)).
      destruct (autodetect_from (S start) rest) as [idx |].
      * destruct IH as (Hrange & Hhit & Hbefore). cbn [List.length].
        replace (idx - start)%nat with (S (idx - S start)) by lia.
        cbn [nth]. repeat split; try lia; [exact Hhit |].
        intros [|j] Hj; [exact Hrow | apply Hbefore; lia].
      * intros row' [<- | Hin]; [exact Hrow | apply IH; exact Hin].
Qed.

(** X10: [autodetect_header_row] returns the index of the first previewed
    row that holds both a cell reading "os" and a cell reading "máscara" or
    "mascara" (whatever the case and the surrounding blanks); every row
    before it fails the test; and it returns [None] exactly when no
    previewed row passes. *)
Theorem autodetect_header_row_first (preview : list (list string)) :
  match autodetect_header_row preview with
  | Some idx =>
      (idx < List.length preview)%nat /\
      header_like (nth idx preview []) = true /\
      forall j, (j < idx)%nat -> header_like (nth j preview []) = false
  | None => forall row, In row preview -> header_like row = false
  end.
Proof.
  unfold autodetect_header_row.
  pose proof (autodetect_from_spec preview 0) as H.
  destruct (autodetect_from 0 preview) as [idx |]; [| exact H].
  rewrite Nat.sub_0_r in H. destruct H as (Hr & Hhit & Hbefore).
  repeat split; [lia | exact Hhit | exact Hbefore].
Qed.

(** X11: on a non-empty list of columns [_suggest] always returns one of
    the columns: a column whose key is the name when there is one (the
    first such, even if an earlier column merely contains the name),
    otherwise the first column whose key contains the name, otherwise the
    first column; only the empty list makes it fail. *)
Theorem suggest_spec (cols : list label) (name : string) :
  (cols = [] -> _suggest cols name = None) /\
  (cols <> [] ->
   exists c : label,
     _suggest cols name = Some c /\ In c cols /\
     (find (fun c => String.eqb (col_key c) (Latin1.lower name)) cols = Some c \/
      (forall c', In c' cols -> col_key c' <> Latin1.lower name) /\
      (find (fun c => Latin1.contains (Latin1.lower name) (col_key c)) cols = Some c \/
       (forall c', In c' cols ->
          Latin1.contains (Latin1.lower name) (col_key c') = false) /\
       hd_error cols = Some c))).
Proof.
  split; [intros ->; reflexivity |].
  intros Hne. unfold _suggest. cbv zeta.
  destruct (find (fun c => String.eqb (col_key c) (Latin1.lower name)) cols)
    as [c |] eqn:Hexact.
  - exists c. split; [reflexivity |].
    split; [exact (proj1 (find_some _ _ Hexact)) | left; reflexivity].
  - assert (Hno : forall c', In c' cols -> col_key c' <> Latin1.lower name).
    { intros c' Hin Heq. pose proof (find_none _ _ Hexact c' Hin) as Hf.
      cbv beta in Hf. rewrite Heq, String.eqb_refl in Hf. discriminate Hf. }
    destruct (find (fun c => Latin1.contains (Latin1.lower name) (col_key c)) cols)
      as [c |] eqn:Hsub.
    + exists c. split; [reflexivity |].
      split; [exact (proj1 (find_some _ _ Hsub)) | right; auto].
    + destruct cols as [|c0 cols]; [contradiction |].
      exists c0. split; [reflexivity |]. split; [left; reflexivity |].
      right. split; [exact Hno |]. right. split; [| reflexivity].
      intros c' Hin. exact (find_none _ _ Hsub c' Hin).
Qed.

Lemma suggest_spec_witness :
  [ColStr "Pos"; ColStr " OS "] <> [] /\
  exists c : label,
    _suggest [ColStr "Pos"; ColStr " OS "] "os" = Some c /\
    In c [ColStr "Pos"; ColStr " OS "].
Proof.
  assert (Hne : [ColStr "Pos"; ColStr " OS "] <> []) by discriminate.
  split; [exact Hne |].
  destruct (proj2 (suggest_spec [ColStr "Pos"; ColStr " OS "] "os") Hne)
    as (c & Hc & Hin & _).
  exists c. split; [exact Hc | exact Hin].
Defined.

(** ** Every run of the sequencer, failing or not *)

Lemma obeys_ret ok_ev {A} (a : A) : obeys ok_ev (ret a).
Proof.
  intros w. cbn [ret fst snd]. split; [| split; [lia | discriminate]].
  exists []. split; [symmetry; apply app_nil_r | reflexivity].
Qed.

Lemma obeys_bind ok_ev {A B} (m : M A) (k : A -> M B) :
  obeys ok_ev m -> (forall a, obeys ok_ev (k a)) -> obeys ok_ev (bind m k).
Proof.
  intros Hm Hk w. unfold bind.
  destruct (Hm w) as ((e1 & Ht1 & Hf1) & Hc1 & Hr1).
  destruct (m w) as [[a | e] w1]; cbn [fst snd] in *.
  - destruct (Hk a w1) as ((e2 & Ht2 & Hf2) & Hc2 & Hr2).
    split; [| split; [lia | exact Hr2]].
    exists (e1 ++ e2). rewrite Ht2, Ht1, app_assoc, forallb_app, Hf1, Hf2.
    split; reflexivity.
  - split; [eauto | split; [exact Hc1 |]].
    intros msg Heq. apply (Hr1 msg). injection Heq as ->. reflexivity.
Qed.

Lemma obeys_when ok_ev (cond : bool) (body : M unit) :
  obeys ok_ev body -> obeys ok_ev (when cond body).
Proof. destruct cond; [trivial | intros _; apply obeys_ret]. Qed.

Lemma obeys_try_finally ok_ev {A} (body : M A) (fin : M unit) :
  obeys ok_ev body -> obeys ok_ev fin -> obeys ok_ev (try_finally body fin).
Proof.
  intros Hb Hf w. unfold try_finally.
  destruct (Hb w) as ((e1 & Ht1 & Hf1) & Hc1 & Hr1).
  destruct (body w) as [r w1]; cbn [fst snd] in *.
  destruct (Hf w1) as ((e2 & Ht2 & Hf2) & Hc2 & Hr2).
  destruct (fin w1) as [[[] | e] w2]; cbn [fst snd] in *;
    (split; [| split; [lia |]]);
    try (exists (e1 ++ e2); rewrite Ht2, Ht1, app_assoc, forallb_app, Hf1, Hf2;
         split; reflexivity).
  - exact Hr1.
  - intros msg Heq. apply (Hr2 msg). injection Heq as ->. reflexivity.
Qed.

Lemma obeys_do_emit ok_ev (e : event) : ok_ev e = true -> obeys ok_ev (do_emit e).
Proof.
  intros He w. cbn [do_emit fst snd]. world_fields.
  split; [| split; [lia | discriminate]].
  exists [e]. cbn [forallb]. rewrite He. split; reflexivity.
Qed.

Lemma obeys_findById ok_ev E el : obeys ok_ev (findById E el).
Proof.
  intros w. unfold findById.
  destruct (resolves E (SAP_IDS el)); cbn [fst snd];
    (split; [| split; [lia | discriminate]]);
    exists []; (split; [symmetry; apply app_nil_r | reflexivity]).
Qed.

Lemma obeys_ui ok_ev E el a :
  ok_ev (EvUi el a) = true -> obeys ok_ev (ui E el a).
Proof.
  intros He. unfold ui. apply obeys_bind; [apply obeys_findById |].
  intros _. apply obeys_do_emit. exact He.
Qed.

Lemma obeys_connect ok_ev E c s :
  ok_ev (EvGetSession c s) = true -> obeys ok_ev (connect_sap_session E c s).
Proof.
  intros He w. unfold connect_sap_session.
  destruct (has_session E c s); world_fields;
    (split; [| split; [lia | discriminate]]);
    exists [EvGetSession c s]; cbn [forallb]; rewrite He; split; reflexivity.
Qed.

Lemma obeys_clip_call ok_ev E op :
  ok_ev (EvClip op) = true -> obeys ok_ev (clip_call E op).
Proof.
  intros He w. unfold clip_call.
  destruct (clip_ok E (clip_calls w)); world_fields;
    (split; [| split; [lia | discriminate]]);
    exists [EvClip op]; cbn [forallb]; rewrite He; split; reflexivity.
Qed.

Lemma obeys_set_clipboard ok_ev E texto :
  (forall op, ok_ev (EvClip op) = true) -> obeys ok_ev (set_clipboard E texto).
Proof.
  intros He. unfold set_clipboard.
  apply obeys_bind; [apply obeys_clip_call, He | intros _].
  apply obeys_try_finally; [| apply obeys_clip_call, He].
  apply obeys_bind; [apply obeys_clip_call, He | intros _].
  apply obeys_clip_call, He.
Qed.

Lemma obeys_ensure_visible_tbl ok_ev i v :
  (forall p, ok_ev (EvScroll p) = true) -> obeys ok_ev (ensure_visible_tbl i v).
Proof.
  intros He w. unfold ensure_visible_tbl. rewrite ensure_visible_eq.
  world_fields. split; [| split; [lia | discriminate]].
  eexists [_]. cbn [forallb]. rewrite He. split; reflexivity.
Qed.

Lemma obeys_wait ok_ev E timeout : obeys ok_ev (wait_not_busy E timeout).
Proof.
  intros w. unfold wait_not_busy.
  destruct (wait_loop_post E (clock w) timeout w)
    as (k & _ & Hc & (_ & _ & _ & _ & Htr) & _ & Hres).
  cbv zeta in *. split; [| split].
  - exists []. rewrite Htr. split; [symmetry; apply app_nil_r | reflexivity].
  - rewrite Hc. pose proof (elapsed_at_nonneg E k (busy_reads w)). lia.
  - intros msg Heq. rewrite Heq in Hres. destruct Hres as (He & _).
    discriminate He.
Qed.

Section AnyRun.

Variable E : env.
Variables (os_str : string) (visible_rows : Z) (save_after : bool).
Variables (connection_index session_index : Z).
Variables (progress_cb log_cb : bool).
Variable ok_ev : event -> bool.
Hypothesis ok_other : forall e, is_save_press e = false -> ok_ev e = true.
Hypothesis ok_save : save_after = true -> ok_ev (EvUi BTN_SAVE_ID Press) = true.

Lemma obeys_push_rows total texts : forall i,
  obeys ok_ev (push_rows E visible_rows progress_cb log_cb total i texts).
Proof.
  induction texts as [|texto rest IH]; intros i; cbn [push_rows].
  - apply obeys_ret.
  - apply obeys_bind; [apply obeys_when, obeys_do_emit, ok_other; reflexivity |].
    intros _. apply obeys_bind.
    { apply obeys_ensure_visible_tbl. intros p. apply ok_other. reflexivity. }
    intros vis_row.
    apply obeys_bind; [apply obeys_ui, ok_other; reflexivity | intros _].
    apply obeys_bind; [apply obeys_wait | intros _].
    apply obeys_bind.
    { apply obeys_set_clipboard. intros op. apply ok_other. reflexivity. }
    intros _.
    apply obeys_bind; [apply obeys_ui, ok_other; reflexivity | intros _].
    apply obeys_bind; [apply obeys_wait | intros _].
    apply obeys_bind; [apply obeys_ui, ok_other; reflexivity | intros _].
    apply obeys_bind; [apply obeys_wait | intros _].
    apply obeys_bind; [apply obeys_when, obeys_do_emit, ok_other; reflexivity |].
    intros _. apply IH.
Qed.

Lemma obeys_open_iw32 : obeys ok_ev (open_iw32_and_load_os E os_str).
Proof.
  unfold open_iw32_and_load_os.
  repeat (apply obeys_bind;
          [first [apply obeys_wait | apply obeys_ui, ok_other; reflexivity]
          | intros _]).
  apply obeys_wait.
Qed.

Lemma obeys_push_to_sap long_texts :
  is_windows E = true ->
  obeys ok_ev
    (push_to_sap E os_str visible_rows save_after connection_index
       session_index progress_cb log_cb long_texts).
Proof.
  intros Hwin. unfold push_to_sap. rewrite Hwin. cbn [negb].
  apply obeys_bind; [apply obeys_connect, ok_other; reflexivity | intros _].
  apply obeys_bind; [apply obeys_ui, ok_other; reflexivity | intros _].
  apply obeys_bind; [apply obeys_when, obeys_do_emit, ok_other; reflexivity |].
  intros _. apply obeys_bind; [apply obeys_open_iw32 | intros _].
  apply obeys_bind; [apply obeys_ui, ok_other; reflexivity | intros _].
  apply obeys_bind; [apply obeys_wait | intros _].
  apply obeys_bind; [apply obeys_findById | intros _].
  apply obeys_bind; [apply obeys_push_rows | intros _].
  apply obeys_bind.
  { destruct save_after eqn:Hsave; [| apply obeys_ret]. cbn [when].
    apply obeys_bind; [apply obeys_when, obeys_do_emit, ok_other; reflexivity |].
    intros _. apply obeys_bind; [apply obeys_ui, ok_save; reflexivity |].
    intros _. apply obeys_wait. }
  intros _.
  apply obeys_bind; [apply obeys_when, obeys_do_emit, ok_other; reflexivity |].
  intros _. apply obeys_ret.
Qed.

End AnyRun.



(** X13: when saving was not asked for, no run presses the save button,
    whatever happens on the way. *)
Theorem push_to_sap_never_saves_unasked (E : env) (os_str : string)
  (visible_rows : Z) (connection_index session_index : Z)
  (progress_cb log_cb : bool) (long_texts : list string) (w : world) :
  exists evs : list event,
    trace (snd (push_to_sap E os_str visible_rows false connection_index
                  session_index progress_cb log_cb long_texts w))
      = trace w ++ evs /\
    existsb is_save_press evs = false.
Proof.
  destruct (is_windows E) eqn:Hwin.
  - destruct (obeys_push_to_sap E os_str visible_rows false connection_index
                session_index progress_cb log_cb
                (fun e => negb (is_save_press e))
                (fun e He => f_equal negb He)
                (fun H => False_ind _ (Bool.diff_false_true H))
                long_texts Hwin w)
      as ((evs & Htr & Hall) & _ & _).
    exists evs. split; [exact Htr |].
    clear Htr. induction evs as [|e evs IH]; [reflexivity |].
    cbn [forallb existsb] in *. apply andb_true_iff in Hall as [He Hall].
    apply negb_true_iff in He. rewrite He. exact (IH Hall).
  - exists []. unfold push_to_sap. rewrite Hwin. cbn [negb raise snd].
    split; [symmetry; apply app_nil_r | reflexivity].
Qed.

Lemma wait_stuck (E : env) (w : world) :
  (forall n, Busy E n = true) ->
  exists w' : world,
    wait_not_busy E TIMEOUT_DEFAULT w = (Raise (TimeoutError busy_msg), w') /\
    trace w' = trace w.
Proof.
  intros Hbusy. unfold wait_not_busy.
  pose proof (wait_loop_post E (clock w) TIMEOUT_DEFAULT w) as Hpost.
  destruct (wait_loop E (clock w) TIMEOUT_DEFAULT w) as [r w'].
  destruct Hpost as (k & _ & _ & (_ & _ & _ & _ & Htr) & _ & Hres).
  cbv zeta in *. cbn [fst snd] in *. exists w'.
  destruct r as [u | e]; [rewrite Hbusy in Hres; discriminate Hres |].
  destruct Hres as (-> & _). split; [reflexivity | exact Htr].
Qed.

(** X14: on Windows, with the session there and the elements resolving,
    a session that stays busy makes [push_to_sap] fail with the timeout
    error at its first wait, however long reads and sleeps last: the
    transaction code has been entered and confirmed, the order number has
    not been typed, and no row has been touched. *)
Theorem push_to_sap_stuck_session (E : env) (os_str : string)
  (visible_rows : Z) (save_after : bool) (connection_index session_index : Z)
  (progress_cb log_cb : bool) (long_texts : list string) (w : world) :
  is_windows E = true ->
  has_session E connection_index session_index = true ->
  (forall id, resolves E id = true) ->
  (forall n, Busy E n = true) ->
  exists w' : world,
    push_to_sap E os_str visible_rows save_after connection_index session_index
      progress_cb log_cb long_texts w = (Raise (TimeoutError busy_msg), w') /\
    trace w' =
      trace w ++
      [ EvGetSession connection_index session_index; EvUi WND0 Maximize ] ++
      opt_event log_cb
        (EvLog ("Abrindo IW32 e carregando OS " ++ os_str ++ "...")%string) ++
      [ EvUi OKCD_ID (SetText "/nIW32"); EvUi WND0 (SendVKey 0) ].
Proof.
  intros Hwin Hsess Hres Hbusy.
  unfold push_to_sap. rewrite Hwin. cbn [negb].
  unfold open_iw32_and_load_os, bind, connect_sap_session, ui, findById, bind,
    do_emit, when.
  rewrite Hsess, !Hres.
  destruct log_cb; cbn [ret opt_event];
    match goal with
    | |- context [wait_not_busy E TIMEOUT_DEFAULT ?W] =>
        destruct (wait_stuck E W Hbusy) as (w' & Hrun & Htr);
        rewrite Hrun; exists w'; split; [reflexivity |];
        rewrite Htr; world_fields; rewrite <- !app_assoc; reflexivity
    end.
Qed.

Lemma push_to_sap_stuck_session_witness :
  exists w' : world,
    push_to_sap E_slow "6000794541" 15 true 0 0 true false ["a"; "b"] w_init
      = (Raise (TimeoutError busy_msg), w') /\
    trace w' =
      [ EvGetSession 0 0; EvUi WND0 Maximize;
        EvUi OKCD_ID (SetText "/nIW32"); EvUi WND0 (SendVKey 0) ].
Proof.
  destruct (push_to_sap_stuck_session E_slow "6000794541" 15 true 0 0 true
              false ["a"; "b"] w_init eq_refl eq_refl (fun _ => eq_refl)
              (fun _ => eq_refl)) as (w' & Hrun & Htr).
  exists w'. split; [exact Hrun | exact Htr].
Defined.






Lemma releases_bind E {A B} (m : M A) (k : A -> M B) :
  releases E m -> (forall a, releases E (k a)) -> releases E (bind m k).
Proof.
  intros Hm Hk w Hw. unfold bind. specialize (Hm w Hw).
  destruct (m w) as [[a | e] w1]; cbn [fst snd] in *.
  - destruct Hm as [Hh | [Hf _]]; [apply Hk; exact Hh | discriminate Hf].
  - destruct Hm as [Hh | [Hf Hc]]; [left; exact Hh | right].
    split; [injection Hf as ->; reflexivity | exact Hc].
Qed.

(** A step that does not touch the clipboard. *)
Lemma releases_untouched E {A} (m : M A) :
  (forall w, clip_held (snd (m w)) = clip_held w) -> releases E m.
Proof. intros H w Hw. left. rewrite H. exact Hw. Qed.

Lemma releases_ret E {A} (a : A) : releases E (ret a).
Proof. apply releases_untouched. reflexivity. Qed.

Lemma releases_when E (cond : bool) (body : M unit) :
  releases E body -> releases E (when cond body).
Proof. destruct cond; [trivial | intros _; apply releases_ret]. Qed.

Lemma releases_do_emit E (e : event) : releases E (do_emit e).
Proof. apply releases_untouched. reflexivity. Qed.

Lemma releases_findById E el : releases E (findById E el).
Proof.
  apply releases_untouched. intros w. unfold findById.
  destruct (resolves E (SAP_IDS el)); reflexivity.
Qed.

Lemma releases_ui E el a : releases E (ui E el a).
Proof.
  apply releases_untouched. intros w. unfold ui, bind, findById, do_emit.
  destruct (resolves E (SAP_IDS el)); reflexivity.
Qed.

Lemma releases_connect E c s : releases E (connect_sap_session E c s).
Proof.
  apply releases_untouched. intros w. unfold connect_sap_session.
  destruct (has_session E c s); reflexivity.
Qed.

Lemma releases_wait E timeout : releases E (wait_not_busy E timeout).
Proof.
  apply releases_untouched. intros w. unfold wait_not_busy.
  destruct (wait_loop_post E (clock w) timeout w)
    as (k & _ & _ & (_ & Hheld & _) & _).
  exact Hheld.
Qed.

Lemma releases_ensure_visible_tbl E i v : releases E (ensure_visible_tbl i v).
Proof.
  apply releases_untouched. intros w. unfold ensure_visible_tbl.
  rewrite ensure_visible_eq. reflexivity.
Qed.

(** Whatever the four calls do, [set_clipboard] gives the clipboard back,
    unless the [CloseClipboard] it ends with fails. *)
Lemma releases_set_clipboard E texto : releases E (set_clipboard E texto).
Proof.
  intros w Hw. unfold set_clipboard, bind, try_finally, clip_call.
  destruct (clip_ok E (clip_calls w)) eqn:Hopen; world_fields;
    [| left; exact Hw].
  destruct (clip_ok E (S (clip_calls w))) eqn:Hempty; world_fields.
  - destruct (clip_ok E (S (S (clip_calls w)))) eqn:Hset; world_fields;
      destruct (clip_ok E (S (S (S (clip_calls w))))) eqn:Hclose; world_fields;
      cbn [Init.Nat.pred]; first [left; reflexivity | right; split; [reflexivity | assumption]].
  - destruct (clip_ok E (S (S (clip_calls w)))) eqn:Hclose; world_fields;
      cbn [Init.Nat.pred]; first [left; reflexivity | right; split; [reflexivity | assumption]].
Qed.

(** X16: a run of [push_to_sap] that starts with the clipboard released
    ends with the clipboard released on every path (normal return, timeout,
    missing element or session, failure to open, to empty or to set the
    clipboard), with one exception: a [CloseClipboard] that fails, in which
    case that failure is the last clipboard call and the error of the
    run. *)
Theorem push_to_sap_releases_clipboard (E : env) (os_str : string)
  (visible_rows : Z) (save_after : bool) (connection_index session_index : Z)
  (progress_cb log_cb : bool) (long_texts : list string) (w : world) :
  clip_held w = false ->
  let run := push_to_sap E os_str visible_rows save_after connection_index
               session_index progress_cb log_cb long_texts w in
  clip_held (snd run) = false \/
  (fst run = Raise (clipboard_error CloseClipboard) /\
   clip_ok E (pred (clip_calls (snd run))) = false).
Proof.
  revert w.
  change (releases E
            (push_to_sap E os_str visible_rows save_after connection_index
               session_index progress_cb log_cb long_texts)).
  assert (Hrows : forall total texts i,
            releases E
              (push_rows E visible_rows progress_cb log_cb total i texts)).
  { intros total texts. induction texts as [|texto rest IH]; intros i;
      cbn [push_rows]; [apply releases_ret |].
    repeat (apply releases_bind;
            [first [ apply releases_when, releases_do_emit
                   | apply releases_ensure_visible_tbl
                   | apply releases_ui
                   | apply releases_wait
                   | apply releases_set_clipboard ]
            | intros ?]).
    apply IH. }
  assert (Hopen : releases E (open_iw32_and_load_os E os_str)).
  { unfold open_iw32_and_load_os.
    repeat (apply releases_bind;
            [first [apply releases_ui | apply releases_wait]
            | intros ?]).
    apply releases_wait. }
  assert (Hsave : releases E
                    (when save_after
                       (when log_cb (do_emit (EvLog "Salvando a ordem...")) ;;
                        ui E BTN_SAVE_ID Press ;;
                        wait_not_busy E TIMEOUT_DEFAULT))).
  { apply releases_when.
    apply releases_bind;
      [apply releases_when, releases_do_emit | intros ?].
    apply releases_bind; [apply releases_ui | intros ?].
    apply releases_wait. }
  unfold push_to_sap. destruct (is_windows E); cbn [negb];
    [| intros w Hw; left; exact Hw].
  apply releases_bind; [apply releases_connect | intros ?].
  apply releases_bind; [apply releases_ui | intros ?].
  apply releases_bind;
    [apply releases_when, releases_do_emit | intros ?].
  apply releases_bind; [exact Hopen | intros ?].
  apply releases_bind; [apply releases_ui | intros ?].
  apply releases_bind; [apply releases_wait | intros ?].
  apply releases_bind; [apply releases_findById | intros ?].
  apply releases_bind; [apply Hrows | intros ?].
  apply releases_bind; [exact Hsave | intros ?].
  apply releases_bind;
    [apply releases_when, releases_do_emit | intros ?].
  apply releases_ret.
Qed.

Lemma push_to_sap_releases_clipboard_witness :
  clip_held w_init = false /\
  fst (push_to_sap E_clip_fails "6000794541" 15 true 0 0 true true ["a"; "b"] w_init)
    = Raise (clipboard_error (SetClipboardText "a")) /\
  clip_calls (snd (push_to_sap E_clip_fails "6000794541" 15 true 0 0 true true
                     ["a"; "b"] w_init)) = 4%nat /\
  clip_held (snd (push_to_sap E_clip_fails "6000794541" 15 true 0 0 true true
                    ["a"; "b"] w_init)) = false.
Proof.
  assert (Hw : clip_held w_init = false) by reflexivity.
  assert (Hrun : fst (push_to_sap E_clip_fails "6000794541" 15 true 0 0 true true
                        ["a"; "b"] w_init)
                 = Raise (clipboard_error (SetClipboardText "a")))
    by (vm_compute; reflexivity).
  split; [exact Hw |]. split; [exact Hrun |].
  split; [vm_compute; reflexivity |].
  destruct (push_to_sap_releases_clipboard E_clip_fails "6000794541" 15 true 0 0
              true true ["a"; "b"] w_init Hw) as [Hheld | [Hclose _]].
  - exact Hheld.
  - rewrite Hrun in Hclose. discriminate Hclose.
Defined.
